(** * tfo-go on darwin: the deferred-connect TCP Fast Open socket layer

    A shallow embedding of [tfo_bsd.go] and [tfo_darwin.go].  Every call
    that leaves the package (the kernel through [golang.org/x/sys/unix],
    the connectx wrapper of package [bsd], the descriptor side of
    [os.File], the handle's mutex) is an event of a small free monad; the
    environment answers the events and the run of a program yields its
    result together with the chronological list of the calls it made.
    One more event, answered by nothing, records that [connect] was
    entered, so that its invocations can be counted along a run. *)

From Stdlib Require Import Strings.Byte String.
From Stdlib Require Import ZArith List Bool Lia.
Import ListNotations.
Local Open Scope string_scope.
Local Open Scope list_scope.
Local Open Scope Z_scope.

Set Implicit Arguments.

(** ** Go values *)

(** Two's-complement conversions to the signed integer types the code
    converts to ([int] is 64 bits wide on every darwin target). *)
Definition wrap_signed (bits : Z) (x : Z) : Z :=
  let m := 2 ^ bits in
  let r := x mod m in
  if r <? 2 ^ (bits - 1) then r else r - m.

Definition int32 (x : Z) : Z := wrap_signed 32 x.
Definition int (x : Z) : Z := wrap_signed 64 x.

Definition in_int64 (x : Z) : Prop := - 2 ^ 63 <= x < 2 ^ 63.

(** The unix socket addresses the package builds. *)
Inductive Sockaddr : Type :=
| SockaddrInet4 (Port : Z) (Addr : list byte)
| SockaddrInet6 (Port : Z) (ZoneId : Z) (Addr : list byte).

(** [unix.Linger]. *)
Record Linger : Type := { Onoff : Z; Linger_ : Z }.

Module net.

(** [net.IP] is a byte slice. *)
Definition IP : Type := list byte.

Definition IPv4len : nat := 4.
Definition IPv6len : nat := 16.

Definition is_zero_byte (b : byte) : bool := Byte.eqb b x00.

(** [IP.To4]: [None] stands for the nil slice. *)
Definition To4 (ip : IP) : option IP :=
  if Nat.eqb (length ip) IPv4len then Some ip
  else if Nat.eqb (length ip) IPv6len
          && forallb is_zero_byte (firstn 10 ip)
          && Byte.eqb (nth 10 ip x00) xff
          && Byte.eqb (nth 11 ip x00) xff
       then Some (firstn 4 (skipn 12 ip))
       else None.

Record TCPAddr : Type := { IP_ : IP; Port : Z; Zone : string }.

End net.

(** Go errors, as far as the package builds or inspects them. *)
Inductive error : Type :=
| Errno (code : Z)
| SyscallError (name : string) (err : error)
| PathError (op : string) (err : error)
| OpError (op : string) (network : string)
          (source addr : option net.TCPAddr) (err : error)
| Errorf (msg : string) (err : error)
| ErrMismatchedAddressFamily
| ErrClosed
| ErrFileClosing
| ErrOther (msg : string).

(** A Go call returns, panics, or is still looping when the model's
    budget of loop rounds is spent. *)
Inductive outcome (A : Type) : Type :=
| Returned (a : A)
| Panicked
| OutOfFuel.
Arguments Panicked {A}.
Arguments OutOfFuel {A}.

Module unix.

(** Constants of [golang.org/x/sys/unix] for darwin. *)

Definition AF_INET : Z := 2.
Definition AF_INET6 : Z := 30.
Definition SOCK_STREAM : Z := 1.
Definition IPPROTO_TCP : Z := 6.
Definition IPPROTO_IPV6 : Z := 41.
Definition IPV6_V6ONLY : Z := 27.
Definition SOL_SOCKET : Z := 65535.
Definition SO_KEEPALIVE : Z := 8.
Definition SO_LINGER : Z := 128.
Definition TCP_NODELAY : Z := 1.
Definition TCP_KEEPALIVE : Z := 16.
Definition TCP_KEEPINTVL : Z := 257.
Definition TCP_FASTOPEN : Z := 261.

Definition EINVAL : Z := 22.
Definition EINPROGRESS : Z := 36.
Definition EADDRINUSE : Z := 48.
Definition ECONNREFUSED : Z := 61.

End unix.

Module time.
(** [time.Duration] counts nanoseconds in an int64. *)
Definition Millisecond : Z := 1000000.
Definition Second : Z := 1000000000.
End time.

(** The listeners [net.ListenConfig.Listen] hands out. *)
Inductive Listener : Type :=
| TCPListener (id : Z)
| UnixListener (id : Z).

(** ** Calls that leave the package *)

Inductive call : Type -> Type :=
(* sync.Mutex of the handle *)
| MuLock : call unit
| MuUnlock : call unit
(* golang.org/x/sys/unix *)
| Socket (domain typ proto : Z) : call (Z * option error)
| CloseOnExec (fd : Z) : call unit
| SetNonblock (fd : Z) (nonblocking : bool) : call (option error)
| SysClose (fd : Z) : call (option error)
| SetsockoptInt (fd level opt value : Z) : call (option error)
| SetsockoptLinger (fd level opt : Z) (l : Linger) : call (option error)
| Bind (fd : Z) (sa : Sockaddr) : call (option error)
(* github.com/database64128/tfo-go/bsd *)
| Connectx (fd srcif : Z) (from : option Sockaddr) (to : Sockaddr)
           (buf : list byte) : call (Z * option error)
(* the descriptor side of os.File, reached while the file is open *)
| FileRead (fd : Z) (len : nat) : call (Z * option error)
| FileWrite (fd : Z) (b : list byte) : call (Z * option error)
| FileReadFrom (fd : Z) (src : list byte) : call (Z * option error)
| FileClose (fd : Z) : call (option error)
| PollPrepareWrite (fd : Z) : call (option error)
| PollWaitWrite (fd : Z) : call (option error)
(* methods of tfoConn that live in another file of the package *)
| GetSocketError (fd : Z) (name : string) : call (option error)
| GetLocalAddr (fd : Z) : call (option net.TCPAddr * option error)
(* net.ListenConfig and net.TCPListener *)
| Listen (network address : string) : call (option Listener * option error)
| ListenerSyscallConn (ln : Z) : call (option error)
| ListenerControl (ln : Z) : call (Z * option error)
| ListenerClose (ln : Z) : call (option error)
(* bookkeeping: tfoConn.connect was entered with this payload *)
| EnterConnect (b : list byte) : call unit.

(** Programs: a finite tree of calls, whose leaves return, panic or give
    up on a loop. *)
Inductive prog (A : Type) : Type :=
| Ret (a : A)
| Vis (R : Type) (c : call R) (k : R -> prog A)
| Panic
| Spin.
Arguments Ret {A} a.
Arguments Vis {A R} c k.
Arguments Panic {A}.
Arguments Spin {A}.

Fixpoint bind {A B : Type} (p : prog A) (f : A -> prog B) : prog B :=
  match p with
  | Ret a => f a
  | Vis c k => Vis c (fun r => bind (k r) f)
  | Panic => Panic
  | Spin => Spin
  end.

Definition perform {R : Type} (c : call R) : prog R := Vis c (fun r => Ret r).

Declare Scope prog_scope.
Delimit Scope prog_scope with prog.
Notation "x <- p ;; q" := (bind p (fun x => q))
  (at level 61, p at next level, right associativity) : prog_scope.
Notation "' pat <- p ;; q" := (bind p (fun x => match x with pat => q end))
  (at level 61, pat pattern, p at next level, right associativity) : prog_scope.
Notation "p ;;; q" := (bind p (fun _ => q))
  (at level 61, right associativity) : prog_scope.
Local Open Scope prog_scope.

(** [if err := p; err != nil { fail }; k], where [fail] ends in a
    return. *)
Definition guard {A : Type} (p : prog (option error))
  (fail : error -> prog A) (k : prog A) : prog A :=
  err <- p ;;
  match err with
  | Some e => fail e
  | None => k
  end.

(** One answered call. *)
Inductive entry : Type :=
| Ev (R : Type) (c : call R) (r : R).
Arguments Ev {R} c r.

(** The environment: it answers a call knowing everything that happened
    before it. *)
Definition oracle : Type := forall R : Type, list entry -> call R -> R.

(** [run os h p]: the outcome of [p] started after history [h], and the
    calls [p] itself made, oldest first. *)
Fixpoint run {A : Type} (os : oracle) (h : list entry) (p : prog A)
  : outcome A * list entry :=
  match p with
  | Ret a => (Returned a, [])
  | Vis c k =>
      let r := os _ h c in
      let '(a, t) := run os (h ++ [Ev c r]) (k r) in
      (a, Ev c r :: t)
  | Panic => (Panicked, [])
  | Spin => (OutOfFuel, [])
  end.

(** Conversion of a slice to an array of [n] bytes (the slice is cast to
    an array pointer, which is dereferenced): a run-time panic when the
    slice is shorter than the array, its first [n] bytes otherwise. *)
Definition slice_to_array (n : nat) (s : list byte) : prog (list byte) :=
  if Nat.ltb (length s) n then Panic else Ret (firstn n s).

(** ** The part of [os.File] the package relies on

    The handle keeps no record of its own of having been closed: what
    happens after [Close] is decided by the file.  As in Go's [os] and
    [internal/poll], [Close] marks the file as closing before the kernel
    is asked to close the descriptor; from then on [Read], [Write] and a
    second [Close] fail with [ErrClosed] inside a [PathError], and
    [RawConn.Write] fails with [ErrFileClosing] before its callback is
    run, and the descriptor is not touched again. *)
Module os.

Record File : Type := { Sysfd : Z; closed : bool }.

Definition NewFile (fd : Z) : File := {| Sysfd := fd; closed := false |}.

Definition Read (f : File) (len : nat) : prog (Z * option error) :=
  if closed f then Ret (0, Some (PathError "read" ErrClosed))
  else perform (FileRead (Sysfd f) len).

Definition Write (f : File) (b : list byte) : prog (Z * option error) :=
  if closed f then Ret (0, Some (PathError "write" ErrClosed))
  else perform (FileWrite (Sysfd f) b).

(** [ReadFrom] copies from the reader; whether the descriptor is reached
    depends on what the reader yields, so the whole call is left to the
    environment. *)
Definition ReadFrom (f : File) (src : list byte) : prog (Z * option error) :=
  perform (FileReadFrom (Sysfd f) src).

(** [Close] marks the file closed whatever the kernel answers. *)
Definition Close (f : File) : prog (File * option error) :=
  if closed f then Ret (f, Some (PathError "close" ErrClosed))
  else
    err <- perform (FileClose (Sysfd f)) ;;
    Ret ({| Sysfd := Sysfd f; closed := true |}, err).

(** [SyscallConn] only refuses the nil file. *)
Definition SyscallConn (f : File) : File * option error := (f, None).

(** The loop of [RawConn.Write]: call [f] until it answers true, waiting
    for the descriptor to become writable between two calls.  [s] is the
    state of the variables the callback captures. *)
Fixpoint RawWriteLoop {S : Type} (fuel : nat) (fd : Z)
  (f : Z -> S -> prog (bool * S)) (s : S) : prog (option error * S) :=
  match fuel with
  | O => Spin
  | Datatypes.S fuel' =>
      '(ready, s') <- f fd s ;;
      if (ready : bool) then Ret (None, s')
      else
        werr <- perform (PollWaitWrite fd) ;;
        match werr with
        | Some e => Ret (Some e, s')
        | None => RawWriteLoop fuel' fd f s'
        end
  end.

Definition RawConnWrite {S : Type} (fuel : nat) (rc : File)
  (f : Z -> S -> prog (bool * S)) (s : S) : prog (option error * S) :=
  if closed rc then Ret (Some ErrFileClosing, s)
  else
    perr <- perform (PollPrepareWrite (Sysfd rc)) ;;
    match perr with
    | Some e => Ret (Some e, s)
    | None => RawWriteLoop fuel (Sysfd rc) f s
    end.

End os.

(** ** Helpers of the package defined outside the two files *)

(** Modelled from the spec: [wrapSyscallError] is defined in another file
    of the package; every system-call failure is wrapped into an error
    that carries the name of the attempted operation and the cause. *)
Definition wrapSyscallError (name : string) (err : error) : error :=
  SyscallError name err.

(** Modelled from the spec: [roundDurationUp] is defined in another file
    of the package; it converts a duration into whole units, rounding up
    to the next whole unit and never truncating below the duration. *)
Definition roundDurationUp (d to : Z) : Z := (d + to - 1) / to.

(** ** The connection handle *)

Record tfoConn : Type := {
  fd : Z;
  f : os.File;
  connected : bool;
  network : string;
  laddr : option net.TCPAddr;
  raddr : option net.TCPAddr;
  lsockaddr : Sockaddr;
  rsockaddr : Sockaddr
}.

Definition set_connected (c : tfoConn) (b : bool) : tfoConn :=
  {| fd := fd c; f := f c; connected := b; network := network c;
     laddr := laddr c; raddr := raddr c;
     lsockaddr := lsockaddr c; rsockaddr := rsockaddr c |}.

Definition set_file (c : tfoConn) (f' : os.File) : tfoConn :=
  {| fd := fd c; f := f'; connected := connected c; network := network c;
     laddr := laddr c; raddr := raddr c;
     lsockaddr := lsockaddr c; rsockaddr := rsockaddr c |}.

Definition set_laddr (c : tfoConn) (a : option net.TCPAddr) : tfoConn :=
  {| fd := fd c; f := f c; connected := connected c; network := network c;
     laddr := a; raddr := raddr c;
     lsockaddr := lsockaddr c; rsockaddr := rsockaddr c |}.

(** [getSocketError] is a method defined in another file of the package:
    its answer is the environment's. *)
Definition getSocketError (c : tfoConn) (name : string) : prog (option error) :=
  perform (GetSocketError (fd c) name).

(** Modelled from the spec: [getLocalAddr] is a method defined in another
    file of the package; the bound local address of a handle is optional
    until connect resolves it. *)
Definition getLocalAddr (c : tfoConn) : prog (tfoConn * option error) :=
  '(a, err) <- perform (GetLocalAddr (fd c)) ;;
  match err with
  | Some e => Ret (c, Some e)
  | None => Ret (set_laddr c a, None)
  end.

Definition is_nil {A : Type} (o : option A) : bool :=
  match o with Some _ => false | None => true end.

(** [err == unix.Errno(code)]. *)
Definition is_errno (err : option error) (code : Z) : bool :=
  match err with
  | Some (Errno e) => e =? code
  | _ => false
  end.

(** ** tfo_darwin.go *)

Definition SetTFOListener (fd : Z) : prog (option error) :=
  perform (SetsockoptInt (int fd) unix.IPPROTO_TCP unix.TCP_FASTOPEN 1).

(** [rawConn.Control(cb)] of a listener: the runtime either refuses (the
    listener is closed) or runs [cb] once on the descriptor and returns
    nil.  [cb] assigns the captured variable, whose value is returned with
    the error of [Control]. *)
Definition ListenerRawControl {S : Type} (ln : Z) (cb : Z -> prog S) (s : S)
  : prog (option error * S) :=
  '(fd, err) <- perform (ListenerControl ln) ;;
  match err with
  | Some e => Ret (Some e, s)
  | None => s' <- cb fd ;; Ret (None, s')
  end.

(** The result is the pair the Go function returns: the listener (nil or
    not) and the error. *)
Definition listenTFO (network address : string)
  : prog (option Listener * option error) :=
  '(ln, err) <- perform (Listen network address) ;;
  match err with
  | Some e => Ret (None, Some e)
  | None =>
      (* darwin requires setting TCP_FASTOPEN after bind() and listen() calls. *)
      match ln with
      | Some (TCPListener id) =>
          guard (perform (ListenerSyscallConn id))
            (fun e => perform (ListenerClose id) ;;; Ret (None, Some e))
            ('(err, innerErr) <-
               ListenerRawControl id (fun fd => SetTFOListener fd) None ;;
             match err with
             | Some e => perform (ListenerClose id) ;;; Ret (None, Some e)
             | None => Ret (ln, innerErr)
             end)
      | _ => Panic
      end
  end.

Definition SetTFODialer (fd : Z) : prog (option error) := Ret None.

Definition setKeepAlivePeriod (fd : Z) (d : Z) : prog (option error) :=
  (* The kernel expects seconds so round to next highest second. *)
  let secs := int (roundDurationUp d time.Second) in
  guard (perform (SetsockoptInt fd unix.IPPROTO_TCP unix.TCP_KEEPINTVL secs))
    (fun e => Ret (Some e))
    (perform (SetsockoptInt fd unix.IPPROTO_TCP unix.TCP_KEEPALIVE secs)).

Definition socket (domain : Z) : prog (Z * option error) :=
  '(fd, err) <- perform (Socket domain unix.SOCK_STREAM unix.IPPROTO_TCP) ;;
  match err with
  | Some e => Ret (fd, Some e)
  | None =>
      perform (CloseOnExec fd) ;;;
      err <- perform (SetNonblock fd true) ;;
      match err with
      | Some e => perform (SysClose fd) ;;; Ret (0, Some e)
      | None => Ret (fd, None)
      end
  end.

(** The variables of [connect] its callback captures: the results [n] and
    [err] of [connect], and [done]. *)
Record connect_vars : Type := {
  var_n : Z;
  var_err : option error;
  var_done : bool
}.

(** The callback handed to [rawConn.Write].  Its short variable
    declaration introduces an [err] of its own, so the [err] of
    [connect] keeps its value. *)
Definition connect_callback (c : tfoConn) (b : list byte) (_ : Z)
  (v : connect_vars) : prog (bool * connect_vars) :=
  if var_done v then Ret (true, v)
  else
    '(bytesSent, err) <-
      perform (Connectx (fd c) 0 None (rsockaddr c) b) ;;
    let v' := {| var_n := int bytesSent; var_err := var_err v;
                 var_done := true |} in
    if is_errno err unix.EINPROGRESS then
      (* err = nil assigns the callback's own variable *)
      Ret (false, v')
    else Ret (true, v').

(** [connect], with the number of rounds granted to the loop of
    [rawConn.Write]. *)
Definition connect_rounds (fuel : nat) (c : tfoConn) (b : list byte)
  : prog (tfoConn * Z * option error) :=
  perform (EnterConnect b) ;;;
  let '(rawConn, err) := os.SyscallConn (f c) in
  match err with
  | Some e => Ret (c, 0, Some (Errorf "failed to get syscall.RawConn" e))
  | None =>
      '(perr, v) <-
        os.RawConnWrite fuel rawConn (connect_callback c b)
          {| var_n := 0; var_err := err; var_done := false |} ;;
      match var_err v with
      | Some e => Ret (c, 0, Some (wrapSyscallError "connectx" e))
      | None =>
          match perr with
          | Some e => Ret (c, 0, Some e)
          | None =>
              err <- getSocketError c "connectx" ;;
              match err with
              | Some e => Ret (c, var_n v, Some e)
              | None =>
                  '(c', err) <- getLocalAddr c ;;
                  Ret (c', var_n v, err)
              end
          end
      end
  end.

(** The callback answers true on its second call at the latest, so two
    rounds are all the loop can use (see [connect_rounds_enough]). *)
Definition connect (c : tfoConn) (b : list byte)
  : prog (tfoConn * Z * option error) :=
  connect_rounds 2 c b.

(** ** tfo_bsd.go *)

Definition setIPv6Only (fd family ipv6only : Z) : prog (option error) :=
  (if family =? unix.AF_INET6 then
     (* Allow both IP versions even if the OS default is otherwise.
        Note that some operating systems never admit this option. *)
     perform (SetsockoptInt fd unix.IPPROTO_IPV6 unix.IPV6_V6ONLY ipv6only)
     ;;; Ret tt
   else Ret tt) ;;;
  Ret None.

Definition setNoDelay (fd noDelay : Z) : prog (option error) :=
  perform (SetsockoptInt fd unix.IPPROTO_TCP unix.TCP_NODELAY noDelay).

Definition setKeepAlive (fd keepalive : Z) : prog (option error) :=
  perform (SetsockoptInt fd unix.SOL_SOCKET unix.SO_KEEPALIVE keepalive).

Definition setLinger (fd sec : Z) : prog (option error) :=
  let l :=
    if sec >=? 0 then {| Onoff := 1; Linger_ := int32 sec |}
    else {| Onoff := 0; Linger_ := 0 |} in
  perform (SetsockoptLinger fd unix.SOL_SOCKET unix.SO_LINGER l).

Definition zero_bytes (n : nat) : list byte := repeat x00 n.

Definition dialTFO (network : string) (laddr raddr : option net.TCPAddr)
  : prog (option tfoConn * option error) :=
  match raddr with
  | None => Panic
  | Some ra =>
  let raddrIs4 := negb (is_nil (net.To4 (net.IP_ ra))) in
  '(domain, rsockaddr) <-
    (if raddrIs4 then
       a <- slice_to_array 4 (net.IP_ ra) ;;
       Ret (unix.AF_INET, SockaddrInet4 (net.Port ra) a)
     else
       a <- slice_to_array 16 (net.IP_ ra) ;;
       Ret (unix.AF_INET6, SockaddrInet6 (net.Port ra) 0 a)) ;;
  checked <-
    match laddr with
    | Some la =>
        let laddrIs4 := negb (is_nil (net.To4 (net.IP_ la))) in
        if negb (Bool.eqb laddrIs4 raddrIs4) then
          Ret (inl ErrMismatchedAddressFamily)
        else if laddrIs4 then
          a <- slice_to_array 4 (net.IP_ la) ;;
          Ret (inr (SockaddrInet4 (net.Port la) a))
        else
          a <- slice_to_array 16 (net.IP_ la) ;;
          Ret (inr (SockaddrInet6 (net.Port la) 0 a))
    | None =>
        if raddrIs4 then Ret (inr (SockaddrInet4 0 (zero_bytes 4)))
        else Ret (inr (SockaddrInet6 0 0 (zero_bytes 16)))
    end ;;
  match checked with
  | inl e => Ret (None, Some e)
  | inr lsockaddr =>
  '(fd, err) <- socket domain ;;
  if negb (is_nil err) then
    Ret (None, option_map (wrapSyscallError "socket") err)
  else
  let v6only := if String.eqb network "tcp6" then 1 else 0 in
  guard (setIPv6Only fd domain v6only)
    (fun e => Ret (None, Some (wrapSyscallError "setsockopt" e)))
  (guard (setNoDelay fd 1)
    (fun e => Ret (None, Some (wrapSyscallError "setsockopt" e)))
  (guard (SetTFODialer fd)
    (fun e => Ret (None, Some (wrapSyscallError "setsockopt" e)))
  (guard (if is_nil laddr then Ret None else perform (Bind fd lsockaddr))
    (fun e => Ret (None, Some (wrapSyscallError "bind" e)))
  (let f := os.NewFile fd in
   Ret (Some {| fd := fd; f := f; connected := false; network := network;
                laddr := laddr; raddr := raddr;
                lsockaddr := lsockaddr; rsockaddr := rsockaddr |},
        err)))))
  end
  end.

(** What the code under the mutex decides: return at once, or unlock and
    go on with the handle. *)
Inductive locked_step (A : Type) : Type :=
| ReturnNow (r : A)
| GoOn (c : tfoConn).
Arguments ReturnNow {A} r.
Arguments GoOn {A} c.

Definition Read (c : tfoConn) (len : nat)
  : prog (tfoConn * Z * option error) :=
  perform MuLock ;;;
  step <-
    (if negb (connected c) then
       '(c1, _, err) <- connect c [] ;;
       match err with
       | Some e => perform MuUnlock ;;; Ret (ReturnNow (c1, 0, Some e))
       | None => Ret (GoOn (set_connected c1 true))
       end
     else Ret (GoOn c)) ;;
  match step with
  | ReturnNow r => Ret r
  | GoOn c2 =>
      perform MuUnlock ;;;
      '(n, err) <- os.Read (f c2) len ;;
      Ret (c2, n, err)
  end.

(* ReadFrom utilizes the underlying file's ReadFrom method to minimize
   copies and allocations.  This method does not send data in SYN, because
   application protocols usually write headers before calling
   ReadFrom/WriteTo. *)
Definition ReadFrom (c : tfoConn) (r : list byte)
  : prog (tfoConn * Z * option error) :=
  perform MuLock ;;;
  step <-
    (if negb (connected c) then
       '(c1, _, err) <- connect c [] ;;
       match err with
       | Some e => perform MuUnlock ;;; Ret (ReturnNow (c1, 0, Some e))
       | None => Ret (GoOn (set_connected c1 true))
       end
     else Ret (GoOn c)) ;;
  match step with
  | ReturnNow r => Ret r
  | GoOn c2 =>
      perform MuUnlock ;;;
      '(n, err) <- os.ReadFrom (f c2) r ;;
      Ret (c2, n, err)
  end.

Definition Write (c : tfoConn) (b : list byte)
  : prog (tfoConn * Z * option error) :=
  perform MuLock ;;;
  if connected c then
    perform MuUnlock ;;;
    '(n, err) <- os.Write (f c) b ;;
    Ret (c, n, err)
  else
    '(c1, n, err) <- connect c b ;;
    let c2 := if is_nil err then set_connected c1 true else c1 in
    perform MuUnlock ;;;
    Ret (c2, n, err).

Definition Close (c : tfoConn) : prog (tfoConn * option error) :=
  '(f', err) <- os.Close (f c) ;;
  let c' := set_file c f' in
  match err with
  | Some e =>
      Ret (c', Some (OpError "close" (network c) (laddr c) (raddr c) e))
  | None => Ret (c', None)
  end.

Definition set_error (c : tfoConn) (e : error) : error :=
  OpError "set" (network c) (laddr c) (raddr c)
    (wrapSyscallError "setsockopt" e).

Definition SetNoDelay (c : tfoConn) (noDelay : bool) : prog (option error) :=
  let value := if noDelay then 1 else 0 in
  guard (setNoDelay (fd c) value) (fun e => Ret (Some (set_error c e)))
    (Ret None).

Definition SetKeepAlive (c : tfoConn) (keepalive : bool) : prog (option error) :=
  let value := if keepalive then 1 else 0 in
  guard (setKeepAlive (fd c) value) (fun e => Ret (Some (set_error c e)))
    (Ret None).

Definition SetKeepAlivePeriod (c : tfoConn) (d : Z) : prog (option error) :=
  guard (setKeepAlivePeriod (fd c) d) (fun e => Ret (Some (set_error c e)))
    (Ret None).

Definition SetLinger (c : tfoConn) (sec : Z) : prog (option error) :=
  guard (setLinger (fd c) sec) (fun e => Ret (Some (set_error c e)))
    (Ret None).

(** ** Environments used to run the code on concrete inputs *)

Definition loopback : net.TCPAddr :=
  {| net.IP_ := [x7f; x00; x00; x01]; net.Port := 8080; net.Zone := "" |}.

Definition loopback6 : net.TCPAddr :=
  {| net.IP_ := zero_bytes 15 ++ [x01]; net.Port := 8080; net.Zone := "" |}.

(** The environment in which every call succeeds: the kernel hands out
    descriptor 3 and listener 4, and transfers all the bytes it is given. *)
Definition os_ok : oracle := fun R _ c =>
  match c in call R return R with
  | MuLock => tt
  | MuUnlock => tt
  | Socket _ _ _ => (3, None)
  | CloseOnExec _ => tt
  | SetNonblock _ _ => None
  | SysClose _ => None
  | SetsockoptInt _ _ _ _ => None
  | SetsockoptLinger _ _ _ _ => None
  | Bind _ _ => None
  | Connectx _ _ _ _ buf => (Z.of_nat (length buf), None)
  | FileRead _ len => (Z.of_nat len, None)
  | FileWrite _ b => (Z.of_nat (length b), None)
  | FileReadFrom _ src => (Z.of_nat (length src), None)
  | FileClose _ => None
  | PollPrepareWrite _ => None
  | PollWaitWrite _ => None
  | GetSocketError _ _ => None
  | GetLocalAddr _ => (Some loopback, None)
  | Listen _ _ => (Some (TCPListener 4), None)
  | ListenerSyscallConn _ => None
  | ListenerControl ln => (ln, None)
  | ListenerClose _ => None
  | EnterConnect _ => tt
  end.

(** [answering special os] answers like [special] where it has an answer
    and like [os] elsewhere. *)
Definition answering (special : forall R : Type, call R -> option R)
  (os : oracle) : oracle :=
  fun R h c =>
    match special R c with
    | Some r => r
    | None => os R h c
    end.

Definition hello : list byte := [x68; x65; x6c; x6c; x6f].

(** A handle as [dialTFO] returns it for a dial to 127.0.0.1:8080. *)
Definition fresh_conn : tfoConn :=
  {| fd := 3; f := os.NewFile 3; connected := false; network := "tcp";
     laddr := None; raddr := Some loopback;
     lsockaddr := SockaddrInet4 0 (zero_bytes 4);
     rsockaddr := SockaddrInet4 8080 [x7f; x00; x00; x01] |}.

(** ** Reading traces *)

Definition is_enter_connect (e : entry) : bool :=
  match e with
  | Ev c _ => match c with EnterConnect _ => true | _ => false end
  end.

Definition is_connectx (e : entry) : bool :=
  match e with
  | Ev c _ => match c with Connectx _ _ _ _ _ => true | _ => false end
  end.

(** Calls that read from the descriptor of the file. *)
Definition is_file_read (e : entry) : bool :=
  match e with
  | Ev c _ =>
      match c with
      | FileRead _ _ => true
      | FileReadFrom _ _ => true
      | _ => false
      end
  end.

(** Calls that close descriptor or listener [x]. *)
Definition is_close_of (x : Z) (e : entry) : bool :=
  match e with
  | Ev c _ =>
      match c with
      | SysClose fd => fd =? x
      | FileClose fd => fd =? x
      | ListenerClose ln => ln =? x
      | _ => false
      end
  end.

Definition count (p : entry -> bool) (t : list entry) : nat :=
  length (filter p t).

(** How many times [tfoConn.connect] was entered along a trace. *)
Definition connect_invocations (t : list entry) : nat :=
  count is_enter_connect t.

(** The errors of the Go runtime for a file that was closed. *)
Definition is_closed_error (e : error) : bool :=
  match e with
  | ErrFileClosing => true
  | PathError _ ErrClosed => true
  | _ => false
  end.

(** ** Sequences of operations on one handle *)

Inductive op : Type :=
| OpRead (len : nat)
| OpReadFrom (r : list byte)
| OpWrite (b : list byte)
| OpClose.

Definition do_op (c : tfoConn) (o : op) : prog (tfoConn * Z * option error) :=
  match o with
  | OpRead len => Read c len
  | OpReadFrom r => ReadFrom c r
  | OpWrite b => Write c b
  | OpClose => '(c', err) <- Close c ;; Ret (c', 0, err)
  end.

(** The operations run one after the other on the handle; the results are
    collected in order. *)
Fixpoint do_ops (c : tfoConn) (ops : list op)
  : prog (tfoConn * list (Z * option error)) :=
  match ops with
  | [] => Ret (c, [])
  | o :: ops' =>
      '(c1, n, err) <- do_op c o ;;
      '(c2, rs) <- do_ops c1 ops' ;;
      Ret (c2, (n, err) :: rs)
  end.

Definition is_read_or_write (o : op) : bool :=
  match o with
  | OpRead _ => true
  | OpWrite _ => true
  | _ => false
  end.

(** ** Address families *)

Inductive family : Type := IPv4 | IPv6.

(** The family of an address: IPv4 when [To4] accepts it, IPv6 for any
    other 16-byte address; shorter or longer slices are no IP address. *)
Definition family_of (ip : net.IP) : option family :=
  if negb (is_nil (net.To4 ip)) then Some IPv4
  else if Nat.eqb (length ip) net.IPv6len then Some IPv6
  else None.

(** ** Further environments and trace readers *)

(** An environment whose connectx primitive carries only the first two
    bytes of the payload. *)
Definition os_short : oracle :=
  answering (fun R c =>
    match c in call R return option R with
    | Connectx _ _ _ _ _ => Some (2, None)
    | _ => None
    end) os_ok.

Definition payload_of (o : op) : list byte :=
  match o with
  | OpWrite b => b
  | _ => []
  end.

Definition is_close (o : op) : bool :=
  match o with
  | OpClose => true
  | _ => false
  end.

(** The operations of a sequence that are not [Close]. *)
Definition io_ops (ops : list op) : list op :=
  filter (fun o => negb (is_close o)) ops.

(** An environment in which the handshake is refused: the pending socket
    error that [getSocketError] reads after connectx is ECONNREFUSED. *)
Definition os_refused : oracle :=
  answering (fun R c =>
    match c in call R return option R with
    | GetSocketError _ name =>
        Some (Some (SyscallError name (Errno unix.ECONNREFUSED)))
    | _ => None
    end) os_ok.

(** An environment whose connectx primitive fails at once with EINVAL and
    leaves no pending error on the socket. *)
Definition os_connectx_fails : oracle :=
  answering (fun R c =>
    match c in call R return option R with
    | Connectx _ _ _ _ _ => Some (0, Some (Errno unix.EINVAL))
    | _ => None
    end) os_ok.

(** An environment whose connectx primitive answers EINPROGRESS. *)
Definition os_in_progress : oracle :=
  answering (fun R c =>
    match c in call R return option R with
    | Connectx _ _ _ _ buf =>
        Some (Z.of_nat (length buf), Some (Errno unix.EINPROGRESS))
    | _ => None
    end) os_ok.

(** An environment in which the local address is already in use. *)
Definition os_bind_fails : oracle :=
  answering (fun R c =>
    match c in call R return option R with
    | Bind _ _ => Some (Some (Errno unix.EADDRINUSE))
    | _ => None
    end) os_ok.

(** An environment whose kernel refuses every integer socket option. *)
Definition os_setsockopt_fails : oracle :=
  answering (fun R c =>
    match c in call R return option R with
    | SetsockoptInt _ _ _ _ => Some (Some (Errno unix.EINVAL))
    | SetsockoptLinger _ _ _ _ => Some (Some (Errno unix.EINVAL))
    | _ => None
    end) os_ok.

(** The descriptor a successful [unix.Socket] call handed out. *)
Definition socket_result (e : entry) : option Z :=
  match e with
  | Ev c r =>
      match c in call R return R -> option Z with
      | Socket _ _ _ =>
          fun r => if is_nil (snd r) then Some (fst r) else None
      | _ => fun _ => None
      end r
  end.

(** The error the kernel answered to a setsockopt call, if any. *)
Definition setsockopt_error (e : entry) : option error :=
  match e with
  | Ev c r =>
      match c in call R return R -> option error with
      | SetsockoptInt _ _ _ _ => fun r => r
      | SetsockoptLinger _ _ _ _ => fun r => r
      | _ => fun _ => None
      end r
  end.

(** The errors of the setsockopt calls of a trace, oldest first. *)
Fixpoint setsockopt_errors (t : list entry) : list error :=
  match t with
  | [] => []
  | e :: t' =>
      match setsockopt_error e with
      | Some err => err :: setsockopt_errors t'
      | None => setsockopt_errors t'
      end
  end.

Definition error_list (r : option error) : list error :=
  match r with
  | Some e => [e]
  | None => []
  end.

(** ** Readers and inputs for the further properties *)

Definition is_bind (e : entry) : bool :=
  match e with
  | Ev c _ => match c with Bind _ _ => true | _ => false end
  end.

Definition is_wait_write (e : entry) : bool :=
  match e with
  | Ev c _ => match c with PollWaitWrite _ => true | _ => false end
  end.

Definition is_file_close (e : entry) : bool :=
  match e with
  | Ev c _ => match c with FileClose _ => true | _ => false end
  end.

(** Calls that close a listener. *)
Definition is_listener_close (e : entry) : bool :=
  match e with
  | Ev c _ => match c with ListenerClose _ => true | _ => false end
  end.

(** Calls that set TCP_FASTOPEN. *)
Definition is_fastopen (e : entry) : bool :=
  match e with
  | Ev c _ =>
      match c with
      | SetsockoptInt _ level opt _ =>
          (level =? unix.IPPROTO_TCP) && (opt =? unix.TCP_FASTOPEN)
      | _ => false
      end
  end.

(** The step of [dialTFO] a failed call belongs to, by the name
    [dialTFO] wraps its error with, and the error.  A refused IPV6_V6ONLY
    is no failed step. *)
Definition failed_step (e : entry) : option (string * error) :=
  match e with
  | Ev c r =>
      match c in call R return R -> option (string * error) with
      | Socket _ _ _ => fun r => option_map (pair "socket") (snd r)
      | SetNonblock _ _ => fun r => option_map (pair "socket") r
      | SetsockoptInt _ level _ _ =>
          fun r =>
            if level =? unix.IPPROTO_TCP
            then option_map (pair "setsockopt") r
            else None
      | Bind _ _ => fun r => option_map (pair "bind") r
      | _ => fun _ => None
      end r
  end.

(** Where a call stands with respect to the mutex of the handle:
    [mutex_step held e] is the state of the mutex after [e], or [None]
    when [e] is out of place: a lock taken twice, an unlock of a free
    mutex, a step of the deferred connect outside the mutex, or a call on
    the file made while the mutex is held. *)
Definition mutex_step (held : bool) (e : entry) : option bool :=
  match e with
  | Ev c _ =>
      match c with
      | MuLock => if held then None else Some true
      | MuUnlock => if held then Some false else None
      | EnterConnect _ => if held then Some held else None
      | Connectx _ _ _ _ _ => if held then Some held else None
      | PollPrepareWrite _ => if held then Some held else None
      | PollWaitWrite _ => if held then Some held else None
      | GetSocketError _ _ => if held then Some held else None
      | GetLocalAddr _ => if held then Some held else None
      | FileRead _ _ => if held then None else Some held
      | FileWrite _ _ => if held then None else Some held
      | FileReadFrom _ _ => if held then None else Some held
      | FileClose _ => if held then None else Some held
      | _ => Some held
      end
  end.

Fixpoint mutex_after (held : bool) (t : list entry) : option bool :=
  match t with
  | [] => Some held
  | e :: t' =>
      match mutex_step held e with
      | Some held' => mutex_after held' t'
      | None => None
      end
  end.

(** The socket address the code builds from an address: for an address
    [To4] accepts, the first four bytes of the slice as it is; otherwise
    its first sixteen bytes, with no zone. *)
Definition sockaddr_of (a : net.TCPAddr) : Sockaddr :=
  if is_nil (net.To4 (net.IP_ a))
  then SockaddrInet6 (net.Port a) 0 (firstn 16 (net.IP_ a))
  else SockaddrInet4 (net.Port a) (firstn 4 (net.IP_ a)).

Definition domain_of (a : net.TCPAddr) : Z :=
  if is_nil (net.To4 (net.IP_ a)) then unix.AF_INET6 else unix.AF_INET.

(** An address with no IP, as [&net.TCPAddr{Port: 8080}]. *)
Definition no_ip : net.TCPAddr :=
  {| net.IP_ := []; net.Port := 8080; net.Zone := "" |}.

(** 127.0.0.1 in the 16-byte form [net.ParseIP] returns. *)
Definition loopback_mapped : net.TCPAddr :=
  {| net.IP_ := zero_bytes 10 ++ [xff; xff; x7f; x00; x00; x01];
     net.Port := 8080; net.Zone := "" |}.

(** A handle that has connected. *)
Definition connected_conn : tfoConn := set_connected fresh_conn true.

(** An environment in which switching the new socket to non-blocking
    fails. *)
Definition os_nonblock_fails : oracle :=
  answering (fun R c =>
    match c in call R return option R with
    | SetNonblock _ _ => Some (Some (Errno unix.EINVAL))
    | _ => None
    end) os_ok.

(** An environment in which the wait for writability runs into the
    deadline while the handshake is in progress. *)
Definition os_wait_times_out : oracle :=
  answering (fun R c =>
    match c in call R return option R with
    | Connectx _ _ _ _ buf =>
        Some (Z.of_nat (length buf), Some (Errno unix.EINPROGRESS))
    | PollWaitWrite _ => Some (Some (ErrOther "i/o timeout"))
    | _ => None
    end) os_ok.

(** An environment in which the listener refuses [Control]. *)
Definition os_control_fails : oracle :=
  answering (fun R c =>
    match c in call R return option R with
    | ListenerControl ln => Some (ln, Some (Errno unix.EINVAL))
    | _ => None
    end) os_ok.

(** The local socket address of a dial: the translation of the local
    address when one is supplied, the zero address of the remote's family
    otherwise. *)
Definition local_sockaddr (laddr : option net.TCPAddr) (ra : net.TCPAddr)
  : Sockaddr :=
  match laddr with
  | Some la => sockaddr_of la
  | None =>
      if is_nil (net.To4 (net.IP_ ra))
      then SockaddrInet6 0 0 (zero_bytes 16)
      else SockaddrInet4 0 (zero_bytes 4)
  end.

(** Calls to connectx that were answered EINPROGRESS. *)
Definition is_in_progress (e : entry) : bool :=
  match e with
  | Ev c r =>
      match c in call R return R -> bool with
      | Connectx _ _ _ _ _ => fun r => is_errno (snd r) unix.EINPROGRESS
      | _ => fun _ => false
      end r
  end.

(** The arguments of a call to connectx. *)
Definition connectx_args (e : entry)
  : option (Z * Z * option Sockaddr * Sockaddr * list byte) :=
  match e with
  | Ev c _ =>
      match c with
      | Connectx fd srcif from to buf => Some (fd, srcif, from, to, buf)
      | _ => None
      end
  end.

(** The error the runtime's poller answered, before the loop of
    [rawConn.Write] or in a wait for writability, if any. *)
Definition poll_error (e : entry) : option error :=
  match e with
  | Ev c r =>
      match c in call R return R -> option error with
      | PollPrepareWrite _ => fun r => r
      | PollWaitWrite _ => fun r => r
      | _ => fun _ => None
      end r
  end.

(** The calls of the data path: the mutex and the reads and writes of
    the file. *)
Definition is_data_path (e : entry) : bool :=
  match e with
  | Ev c _ =>
      match c with
      | MuLock => true
      | MuUnlock => true
      | FileRead _ _ => true
      | FileWrite _ _ => true
      | FileReadFrom _ _ => true
      | _ => false
      end
  end.

(** The descriptor a setsockopt call is made on. *)
Definition setsockopt_fd (e : entry) : option Z :=
  match e with
  | Ev c _ =>
      match c with
      | SetsockoptInt fd _ _ _ => Some fd
      | SetsockoptLinger fd _ _ _ => Some fd
      | _ => None
      end
  end.

(** What a run of a public setter looks like: at least one call, all of
    them setsockopt calls on the descriptor of the handle; the result is
    nil when none failed and otherwise the first failure, wrapped as the
    setters wrap it. *)
Definition setter_run (c : tfoConn) (r : option error) (t : list entry)
  : Prop :=
  t <> []
  /\ Forall (fun e => setsockopt_fd e = Some (fd c)) t
  /\ r = option_map (set_error c) (hd_error (setsockopt_errors t)).

Definition is_file_write (e : entry) : bool :=
  match e with
  | Ev c _ => match c with FileWrite _ _ => true | _ => false end
  end.

(** * Properties *)

(** ** Running programs *)

Lemma run_bind (os : oracle) (A B : Type) (p : prog A) (k : A -> prog B) :
  forall h,
    run os h (bind p k) =
    match run os h p with
    | (Returned a, t) =>
        let '(b, t') := run os (h ++ t) (k a) in (b, t ++ t')
    | (Panicked, t) => (Panicked, t)
    | (OutOfFuel, t) => (OutOfFuel, t)
    end.
Proof.
  induction p as [a | R c k0 IH | | ]; intro h; simpl.
  - rewrite app_nil_r. destruct (run os h (k a)); reflexivity.
  - rewrite IH.
    destruct (run os (h ++ [Ev c (os R h c)]) (k0 (os R h c)))
      as [[a | | ] t]; simpl; try reflexivity.
    rewrite <- app_assoc. simpl.
    destruct (run os (h ++ Ev c (os R h c) :: t) (k a)); reflexivity.
  - reflexivity.
  - reflexivity.
Qed.

Lemma run_perform (os : oracle) (R : Type) (c : call R) (h : list entry) :
  run os h (perform c) = (Returned (os R h c), [Ev c (os R h c)]).
Proof. reflexivity. Qed.

Lemma count_app (p : entry -> bool) (t1 t2 : list entry) :
  count p (t1 ++ t2) = (count p t1 + count p t2)%nat.
Proof. unfold count. rewrite filter_app, length_app. reflexivity. Qed.

Lemma lock_answer (os : oracle) (h : list entry) : os unit h MuLock = tt.
Proof. destruct (os unit h MuLock). reflexivity. Qed.

Lemma unlock_answer (os : oracle) (h : list entry) : os unit h MuUnlock = tt.
Proof. destruct (os unit h MuUnlock). reflexivity. Qed.

(** Case analysis on everything the environment answers along a run. *)
Ltac crunch :=
  repeat (cbn; rewrite <- ?app_assoc; cbn;
    match goal with
    | |- context [os.closed ?f] => destruct (os.closed f) eqn:?
    | |- context [is_errno ?o ?e] => destruct (is_errno o e) eqn:?
    | |- context [?os ?R ?h ?c] =>
        lazymatch type of os with
        | oracle => destruct (os R h c) eqn:?
        end
    | |- context [match ?x with _ => _ end] =>
        is_var x;
        lazymatch type of x with
        | list _ => fail
        | _ => destruct x
        end
    end); cbn.

Ltac unfold_connect :=
  unfold connect, connect_rounds, os.RawConnWrite, os.SyscallConn,
    connect_callback, getSocketError, getLocalAddr.

(** ** [connect] *)

(** What every run of [connect] looks like: it returns; it is entered
    once; it never reads from the descriptor; it changes nothing of the
    handle but the local address; on a closed file it stops before any
    call to the kernel; and when it reports success the count it returns
    is the one connectx reported for the payload. *)
Lemma connect_outcome (os : oracle) (h : list entry) (c : tfoConn)
  (b : list byte) :
  exists c1 n err t,
    run os h (connect c b)
    = (Returned (c1, n, err), Ev (EnterConnect b) tt :: t)
    /\ count is_enter_connect t = 0%nat
    /\ count is_file_read t = 0%nat
    /\ (f c1 = f c /\ connected c1 = connected c /\ fd c1 = fd c)
    /\ (os.closed (f c) = true ->
        t = [] /\ n = 0 /\ err = Some ErrFileClosing)
    /\ (err = None ->
        exists sent cerr,
          In (Ev (Connectx (fd c) 0 None (rsockaddr c) b) (sent, cerr)) t
          /\ n = int sent).
Proof.
  unfold_connect. crunch.
  all: do 4 eexists; split; [reflexivity | ].
  all: repeat split; try reflexivity; try discriminate.
  all: intros _; do 2 eexists; split; [ | reflexivity].
  all: cbn; auto.
Qed.

(** Two rounds are all the loop of [rawConn.Write] can use: with any
    larger budget [connect] runs the same way. *)
Lemma connect_rounds_enough (os : oracle) (h : list entry) (c : tfoConn)
  (b : list byte) (fuel : nat) :
  (2 <= fuel)%nat ->
  run os h (connect_rounds fuel c b) = run os h (connect c b).
Proof.
  intro Hfuel.
  destruct fuel as [ | [ | fuel]]; try lia.
  unfold_connect. crunch; reflexivity.
Qed.

(** ** [Write] *)

(** C1.  [Write] on a handle that is not yet connected takes the mutex,
    enters [connect] with the buffer as payload, marks the handle
    connected exactly when [connect] reports no error, releases the mutex
    and returns the count and error of [connect]; on success that count is
    the number of bytes connectx reported for the buffer, which can be
    smaller than the buffer (2 of the 5 bytes of [hello] under
    [os_short]).  On a connected handle [Write] takes and releases the
    mutex, calls nothing of [connect] and returns what the file's [Write]
    returns for the buffer. *)
Theorem Write_defers_connect (os : oracle) (h : list entry) (c : tfoConn)
  (b : list byte) :
  (if connected c then
     exists n err t,
       run os (h ++ [Ev MuLock tt; Ev MuUnlock tt]) (os.Write (f c) b)
       = (Returned (n, err), t)
       /\ run os h (Write c b)
          = (Returned (c, n, err), Ev MuLock tt :: Ev MuUnlock tt :: t)
       /\ connect_invocations t = 0%nat
   else
     exists c1 n err t,
       run os (h ++ [Ev MuLock tt]) (connect c b)
       = (Returned (c1, n, err), Ev (EnterConnect b) tt :: t)
       /\ run os h (Write c b)
          = (Returned (set_connected c1 (is_nil err), n, err),
             Ev MuLock tt :: Ev (EnterConnect b) tt :: t ++ [Ev MuUnlock tt])
       /\ match err with
          | Some _ => True
          | None =>
              exists sent cerr,
                In (Ev (Connectx (fd c) 0 None (rsockaddr c) b) (sent, cerr)) t
                /\ n = int sent
          end)
  /\ (exists c' t,
        run os_short [] (Write fresh_conn hello) = (Returned (c', 2, None), t)
        /\ connected c' = true
        /\ 2 < Z.of_nat (length hello)).
Proof.
  split.
  - destruct (connected c) eqn:Hconn.
    + unfold Write, os.Write. rewrite Hconn. crunch.
      all: repeat match goal with
             | H : (_, _) = (_, _) |- _ => inversion H; subst; clear H
             end.
      all: do 3 eexists; repeat split; reflexivity.
    + destruct (connect_outcome os (h ++ [Ev MuLock tt]) c b)
        as (c1 & n & err & t & Hrun & _ & _ & (_ & Hc1 & _) & _ & Hsent).
      exists c1, n, err, t. split; [exact Hrun | ]. split.
      * unfold Write. rewrite Hconn. rewrite run_bind, run_perform.
        rewrite lock_answer. cbn zeta iota beta.
        rewrite run_bind, Hrun. cbn.
        rewrite unlock_answer.
        destruct err; cbn.
        -- f_equal. f_equal. f_equal.
           destruct c1; cbn in Hc1 |- *; rewrite Hc1, Hconn; reflexivity.
        -- reflexivity.
      * destruct err; [exact I | apply Hsent; reflexivity].
  - do 2 eexists. split; [vm_compute; reflexivity | ].
    split; [reflexivity | cbn; lia].
Qed.

(** ** [Read] and [ReadFrom] *)

(** What [Read] and [ReadFrom] share: the deferred connect under the
    mutex, then the unlock and the rest, [tail]. *)
Lemma read_prologue (os : oracle) (h : list entry) (c : tfoConn)
  (tail : tfoConn -> prog (tfoConn * Z * option error)) :
  connected c = false ->
  exists c1 n err t,
    run os (h ++ [Ev MuLock tt]) (connect c [])
    = (Returned (c1, n, err), Ev (EnterConnect []) tt :: t)
    /\ count is_file_read t = 0%nat
    /\ connected c1 = false
    /\ let pre :=
         Ev MuLock tt :: Ev (EnterConnect []) tt :: t ++ [Ev MuUnlock tt] in
       run os h
         (perform MuLock ;;;
          step <-
            (if negb (connected c) then
               '(c1, _, err) <- connect c [] ;;
               match err with
               | Some e =>
                   perform MuUnlock ;;; Ret (ReturnNow (c1, 0, Some e))
               | None => Ret (GoOn (set_connected c1 true))
               end
             else Ret (GoOn c)) ;;
          match step with
          | ReturnNow r => Ret r
          | GoOn c2 => perform MuUnlock ;;; tail c2
          end)
       = match err with
         | Some e => (Returned (c1, 0, Some e), pre)
         | None =>
             let '(r, t') := run os (h ++ pre) (tail (set_connected c1 true)) in
             (r, pre ++ t')
         end.
Proof.
  intro Hconn.
  destruct (connect_outcome os (h ++ [Ev MuLock tt]) c [])
    as (c1 & n & err & t & Hrun & _ & Hrd & (_ & Hc1 & _) & _ & _).
  exists c1, n, err, t.
  split; [exact Hrun | ]. split; [exact Hrd | ].
  split; [congruence | ].
  cbn zeta. rewrite Hconn. cbn [negb].
  rewrite run_bind, run_perform, lock_answer. cbn zeta iota beta.
  rewrite run_bind, run_bind, Hrun. cbn zeta iota beta.
  destruct err as [e | ].
  - cbn. rewrite unlock_answer, app_nil_r. reflexivity.
  - cbn [run app]. rewrite app_nil_r.
    rewrite run_bind, run_perform, unlock_answer. cbn zeta iota beta.
    replace ((h ++ [Ev MuLock tt]) ++ Ev (EnterConnect []) tt :: t)
      with (h ++ Ev MuLock tt :: Ev (EnterConnect []) tt :: t)
      by (rewrite <- app_assoc; reflexivity).
    replace ((h ++ Ev MuLock tt :: Ev (EnterConnect []) tt :: t)
             ++ [Ev MuUnlock tt])
      with (h ++ Ev MuLock tt :: Ev (EnterConnect []) tt
              :: t ++ [Ev MuUnlock tt])
      by (rewrite <- app_assoc; reflexivity).
    destruct (run os _ (tail (set_connected c1 true))) as [r t'].
    cbn. rewrite <- ?app_assoc. reflexivity.
Qed.

(** C3.  [Read] and [ReadFrom] on a handle that is not yet connected take
    the mutex and enter [connect] with the empty payload.  When [connect]
    fails they release the mutex and return 0 and its error, and the
    descriptor has not been read.  When it succeeds the handle is marked
    connected, the mutex is released, and only then the file is read: the
    result is the file's, and nothing before it read the descriptor. *)
Theorem Read_connects_first (os : oracle) (h : list entry) (c : tfoConn)
  (len : nat) (r : list byte) :
  connected c = false ->
  exists c1 n err t,
    run os (h ++ [Ev MuLock tt]) (connect c [])
    = (Returned (c1, n, err), Ev (EnterConnect []) tt :: t)
    /\ let pre :=
         Ev MuLock tt :: Ev (EnterConnect []) tt :: t ++ [Ev MuUnlock tt] in
       let c2 := set_connected c1 true in
       count is_file_read pre = 0%nat
       /\ match err with
          | Some e =>
              run os h (Read c len) = (Returned (c1, 0, Some e), pre)
              /\ run os h (ReadFrom c r) = (Returned (c1, 0, Some e), pre)
              /\ connected c1 = false
          | None =>
              (exists n' err' t',
                 run os (h ++ pre) (os.Read (f c2) len)
                 = (Returned (n', err'), t')
                 /\ run os h (Read c len)
                    = (Returned (c2, n', err'), pre ++ t'))
              /\ (exists n' err' t',
                    run os (h ++ pre) (os.ReadFrom (f c2) r)
                    = (Returned (n', err'), t')
                    /\ run os h (ReadFrom c r)
                       = (Returned (c2, n', err'), pre ++ t'))
          end.
Proof.
  intro Hconn.
  destruct (read_prologue os h c
              (fun c2 => '(n, err) <- os.Read (f c2) len ;; Ret (c2, n, err))
              Hconn)
    as (c1 & n & err & t & Hrun & Hrd & Hc1 & HRead).
  destruct (read_prologue os h c
              (fun c2 => '(n, err) <- os.ReadFrom (f c2) r ;; Ret (c2, n, err))
              Hconn)
    as (c1' & n' & err' & t' & Hrun' & _ & _ & HReadFrom).
  rewrite Hrun in Hrun'. inversion Hrun'; subst c1' n' err' t'. clear Hrun'.
  exists c1, n, err, t. split; [exact Hrun | ].
  cbn zeta in *. split.
  - unfold count in *. cbn. rewrite filter_app, length_app.
    cbn. rewrite Hrd. reflexivity.
  - fold (Read c len) in HRead. fold (ReadFrom c r) in HReadFrom.
    destruct err as [e | ].
    + auto.
    + split.
      * rewrite HRead. unfold os.Read. crunch.
        all: do 3 eexists; split; reflexivity.
      * rewrite HReadFrom. unfold os.ReadFrom. crunch.
        all: do 3 eexists; split; reflexivity.
Qed.

(** ** One operation on a handle *)

Ltac unfold_ops :=
  unfold do_op, Read, ReadFrom, Write, Close, os.Read, os.ReadFrom,
    os.Write, os.Close;
  unfold_connect.

(** Every operation returns.  A [Read], [ReadFrom] or [Write] enters
    [connect] once when the handle is not connected and never when it is;
    [Close] never does.  A connected handle stays connected, a closed file
    stays closed, and [Close] leaves the file closed. *)
Lemma do_op_outcome (os : oracle) (h : list entry) (c : tfoConn) (o : op) :
  exists c' n err t,
    run os h (do_op c o) = (Returned (c', n, err), t)
    /\ connect_invocations t
       = (if is_close o || connected c then 0 else 1)%nat
    /\ (connected c = true -> connected c' = true)
    /\ (os.closed (f c) = true -> os.closed (f c') = true)
    /\ (is_close o = true -> os.closed (f c') = true).
Proof.
  destruct o; destruct (connected c) eqn:Hconn;
    unfold_ops; rewrite ?Hconn; crunch.
  all: do 4 eexists; split; [reflexivity | ].
  all: repeat split; cbn; intros; try reflexivity; try discriminate;
    try assumption.
Qed.

(** On a handle whose file is closed, [Read] and [Write] reach neither the
    kernel nor connectx: they return 0 and the runtime's closed-file
    error, and all they do besides the mutex is enter [connect] when the
    handle never connected. *)
Lemma do_op_closed (os : oracle) (h : list entry) (c : tfoConn) (o : op) :
  os.closed (f c) = true ->
  is_read_or_write o = true ->
  exists e,
    run os h (do_op c o)
    = (Returned (c, 0, Some e),
       Ev MuLock tt
       :: (if connected c then [] else [Ev (EnterConnect (payload_of o)) tt])
       ++ [Ev MuUnlock tt])
    /\ is_closed_error e = true.
Proof.
  intros Hclosed Hrw.
  destruct o; try discriminate; destruct (connected c) eqn:Hconn;
    unfold_ops; rewrite ?Hconn; crunch; try discriminate.
  all: eexists; split; [reflexivity | reflexivity].
Qed.

(** ** Sequences of operations *)

Lemma do_ops_outcome (os : oracle) (ops : list op) :
  forall (h : list entry) (c : tfoConn),
  exists c' rs t,
    run os h (do_ops c ops) = (Returned (c', rs), t)
    /\ (connect_invocations t <= length (io_ops ops))%nat
    /\ (connected c = true ->
        connect_invocations t = 0%nat /\ connected c' = true)
    /\ (connected c' = false ->
        connect_invocations t = length (io_ops ops))
    /\ (os.closed (f c) = true -> os.closed (f c') = true).
Proof.
  induction ops as [ | o ops IH]; intros h c.
  - exists c, [], []. cbn. repeat split; auto.
  - destruct (do_op_outcome os h c o)
      as (c1 & n & err & t1 & Hrun1 & Hinv1 & Hconn1 & Hclosed1 & _).
    destruct (IH (h ++ t1) c1)
      as (c2 & rs & t2 & Hrun2 & Hle2 & Hconn2 & Hretry2 & Hclosed2).
    exists c2, ((n, err) :: rs), (t1 ++ t2).
    split.
    { cbn [do_ops]. rewrite run_bind, Hrun1. cbn zeta iota beta.
      rewrite run_bind, Hrun2. cbn. rewrite app_nil_r. reflexivity. }
    unfold connect_invocations in *. rewrite count_app.
    repeat split.
    + rewrite Hinv1. unfold io_ops in *. cbn [filter].
      destruct (is_close o), (connected c); cbn [negb orb length]; lia.
    + rewrite Hinv1, H, orb_true_r.
      destruct (Hconn2 (Hconn1 H)) as [-> _]. reflexivity.
    + apply Hconn2, Hconn1, H.
    + intro Hc2.
      assert (Hc1 : connected c1 = false).
      { destruct (connected c1) eqn:E; [ | reflexivity].
        destruct (Hconn2 eq_refl) as [_ Habs]. congruence. }
      assert (Hc : connected c = false).
      { destruct (connected c) eqn:E; [ | reflexivity].
        rewrite (Hconn1 eq_refl) in Hc1. discriminate. }
      rewrite Hinv1, Hc, (Hretry2 Hc2), orb_false_r.
      unfold io_ops. cbn [filter].
      destruct (is_close o); reflexivity.
    + intro Hcl. apply Hclosed2, Hclosed1, Hcl.
Qed.

Lemma do_ops_app (os : oracle) (ops1 ops2 : list op) :
  forall (h : list entry) (c c1 : tfoConn) rs1 t1,
    run os h (do_ops c ops1) = (Returned (c1, rs1), t1) ->
    run os h (do_ops c (ops1 ++ ops2))
    = let '(r, t2) := run os (h ++ t1) (do_ops c1 ops2) in
      (match r with
       | Returned (c2, rs2) => Returned (c2, rs1 ++ rs2)
       | Panicked => Panicked
       | OutOfFuel => OutOfFuel
       end, t1 ++ t2).
Proof.
  induction ops1 as [ | o ops1 IH]; intros h c c1 rs1 t1 Hrun.
  - cbn in Hrun. inversion Hrun; subst. cbn [app]. rewrite app_nil_r.
    destruct (run os h (do_ops c1 ops2)) as [[[c2 rs2] | | ] t2]; reflexivity.
  - cbn [app do_ops] in *.
    rewrite run_bind in Hrun. rewrite run_bind.
    destruct (do_op_outcome os h c o)
      as (c' & n & err & t & Hop & _).
    rewrite Hop in *. cbn zeta iota beta in *.
    rewrite run_bind in Hrun. rewrite run_bind.
    destruct (do_ops_outcome os ops1 (h ++ t) c')
      as (c1' & rs1' & t1' & Hrest & _).
    rewrite Hrest in Hrun. cbn in Hrun. rewrite app_nil_r in Hrun.
    inversion Hrun; subst c1' rs1 t1. clear Hrun.
    rewrite (IH _ _ _ _ _ Hrest).
    rewrite <- app_assoc.
    destruct (run os (h ++ t ++ t1') (do_ops c1 ops2))
      as [[[c2 rs2] | | ] t2]; cbn; rewrite ?app_nil_r, <- ?app_assoc;
      reflexivity.
Qed.

(** C2, as stated, fails: when the first [Write] on a handle ends in a
    failed connect, the second [Write] enters [connect] again. *)
Lemma connect_retried_after_failure :
  ~ (forall (os : oracle) (c : tfoConn) (ops : list op) c' rs t,
       run os [] (do_ops c ops) = (Returned (c', rs), t) ->
       (connect_invocations t <= 1)%nat).
Proof.
  intro Hclaim.
  specialize (Hclaim os_refused fresh_conn [OpWrite hello; OpWrite hello]).
  specialize (Hclaim _ _ _ eq_refl).
  vm_compute in Hclaim. lia.
Qed.

(** One operation and the connect attempt it makes.  A [Close], and any
    operation on a connected handle, does not enter [connect] and leaves
    the flag as it is.  A [Read], [ReadFrom] or [Write] on a handle that
    is not connected takes the mutex and runs [connect] on its payload,
    once, and the handle is connected afterwards exactly when that run
    of [connect] returned no error. *)
Lemma do_op_attempt (os : oracle) (h : list entry) (c : tfoConn) (o : op) :
  exists c' n err t,
    run os h (do_op c o) = (Returned (c', n, err), t)
    /\ (if is_close o || connected c then
          connect_invocations t = 0%nat /\ connected c' = connected c
        else
          exists ca na erra ta rest,
            run os (h ++ [Ev MuLock tt]) (connect c (payload_of o))
            = (Returned (ca, na, erra),
               Ev (EnterConnect (payload_of o)) tt :: ta)
            /\ t = Ev MuLock tt
                   :: Ev (EnterConnect (payload_of o)) tt :: ta ++ rest
            /\ connect_invocations t = 1%nat
            /\ connected c' = is_nil erra).
Proof.
  destruct o; destruct (connected c) eqn:Hconn;
    unfold_ops; rewrite ?Hconn; crunch.
  all: do 4 eexists; split; [reflexivity | ].
  all: first
         [ split; [reflexivity | cbn; congruence]
         | do 5 eexists; split; [reflexivity | ];
           split; [cbn; reflexivity | ];
           split; [reflexivity | cbn; rewrite ?Hconn; reflexivity] ].
Qed.

(** On a handle that is not connected, the first operation of a sequence
    that is not a [Close] enters [connect]. *)
Lemma do_ops_first_attempt (os : oracle) (ops : list op) :
  forall (h : list entry) (c : tfoConn),
    connected c = false ->
    exists r t,
      run os h (do_ops c ops) = (Returned r, t)
      /\ (io_ops ops = [] \/ (1 <= connect_invocations t)%nat).
Proof.
  induction ops as [ | o ops IH]; intros h c Hconn.
  - do 2 eexists. split; [reflexivity | left; reflexivity].
  - destruct (do_op_attempt os h c o)
      as (c1 & n & err & t1 & Hrun1 & Hlaw).
    rewrite Hconn, orb_false_r in Hlaw.
    destruct (do_ops_outcome os ops (h ++ t1) c1)
      as (c2 & rs & t2 & Hrun2 & _).
    exists (c2, (n, err) :: rs), (t1 ++ t2). split.
    { cbn [do_ops]. rewrite run_bind, Hrun1. cbn zeta iota beta.
      rewrite run_bind, Hrun2. cbn. rewrite app_nil_r. reflexivity. }
    unfold connect_invocations in *. rewrite count_app.
    unfold io_ops in *. cbn [filter].
    destruct (is_close o) eqn:Hclose; cbn [negb].
    + destruct Hlaw as [_ Hc1].
      destruct (IH (h ++ t1) c1 Hc1) as (r' & t' & Hrun' & Hfirst).
      rewrite Hrun2 in Hrun'. inversion Hrun'; subst r' t'.
      destruct Hfirst as [Hnone | Hone]; [left; exact Hnone | right; lia].
    + destruct Hlaw as (ca & na & erra & ta & rest & _ & _ & Hinv & _).
      right. lia.
Qed.

(** C2, amended.  Take any sequence of [Read], [ReadFrom], [Write] and
    [Close] on a handle, any operation after it, and any sequence after
    that.  The operation enters [connect] only if it is not a [Close] and
    finds the handle not connected, and then once: it runs [connect]
    under the mutex, and the handle is connected afterwards exactly when
    that attempt returned no error.  After an attempt that succeeded the
    handle is connected and the operations that follow never enter
    [connect]; after one that failed the handle is not connected and the
    next [Read], [ReadFrom] or [Write] enters [connect] again.  The
    operations that follow enter [connect] at most once each, and if the
    handle is still not connected at the end, every one that is not a
    [Close] entered it. *)
Theorem connect_only_until_success (os : oracle) (h : list entry)
  (c : tfoConn) (ops1 : list op) (o : op) (ops2 : list op) :
  exists c1 rs1 t1 c2 n err t2 c3 rs3 t3,
    run os h (do_ops c ops1) = (Returned (c1, rs1), t1)
    /\ run os (h ++ t1) (do_op c1 o) = (Returned (c2, n, err), t2)
    /\ run os (h ++ t1 ++ t2) (do_ops c2 ops2) = (Returned (c3, rs3), t3)
    /\ run os h (do_ops c (ops1 ++ o :: ops2))
       = (Returned (c3, rs1 ++ (n, err) :: rs3), t1 ++ t2 ++ t3)
    /\ (if is_close o || connected c1 then
          connect_invocations t2 = 0%nat /\ connected c2 = connected c1
        else
          exists ca na erra ta rest,
            run os ((h ++ t1) ++ [Ev MuLock tt]) (connect c1 (payload_of o))
            = (Returned (ca, na, erra),
               Ev (EnterConnect (payload_of o)) tt :: ta)
            /\ t2 = Ev MuLock tt
                    :: Ev (EnterConnect (payload_of o)) tt :: ta ++ rest
            /\ connect_invocations t2 = 1%nat
            /\ connected c2 = is_nil erra)
    /\ (connect_invocations t3 <= length (io_ops ops2))%nat
    /\ (if connected c2 then
          connect_invocations t3 = 0%nat /\ connected c3 = true
        else io_ops ops2 = [] \/ (1 <= connect_invocations t3)%nat)
    /\ (if connected c3 then True
        else connect_invocations t3 = length (io_ops ops2)).
Proof.
  destruct (do_ops_outcome os ops1 h c) as (c1 & rs1 & t1 & Hrun1 & _).
  destruct (do_op_attempt os (h ++ t1) c1 o)
    as (c2 & n & err & t2 & Hrun2 & Hlaw).
  destruct (do_ops_outcome os ops2 (h ++ t1 ++ t2) c2)
    as (c3 & rs3 & t3 & Hrun3 & Hle & Hconn & Hretry & _).
  exists c1, rs1, t1, c2, n, err, t2, c3, rs3, t3.
  split; [exact Hrun1 | ]. split; [exact Hrun2 | ]. split; [exact Hrun3 | ].
  split.
  { rewrite (do_ops_app os ops1 (o :: ops2) h c Hrun1).
    cbn [do_ops]. rewrite run_bind, Hrun2. cbn zeta iota beta.
    rewrite <- app_assoc.
    rewrite run_bind, Hrun3. cbn. rewrite app_nil_r. reflexivity. }
  split; [exact Hlaw | ]. split; [exact Hle | ]. split.
  - destruct (connected c2) eqn:Hc2; [apply Hconn; reflexivity | ].
    destruct (do_ops_first_attempt os ops2 (h ++ t1 ++ t2) c2 Hc2)
      as (r' & t' & Hrun' & Hfirst).
    rewrite Hrun3 in Hrun'. inversion Hrun'; subst r' t'. exact Hfirst.
  - destruct (connected c3); [exact I | apply Hretry; reflexivity].
Qed.

(** ** After [Close] *)

(** C4, as stated, fails in one respect: a [Read] after [Close] on a
    handle that never connected does enter [connect]. *)
Lemma connect_entered_after_Close :
  ~ (forall (os : oracle) (c : tfoConn) (o : op) c1 e t1 r t2,
       is_read_or_write o = true ->
       run os [] (Close c) = (Returned (c1, e), t1) ->
       run os t1 (do_op c1 o) = (r, t2) ->
       connect_invocations t2 = 0%nat).
Proof.
  intro Hclaim.
  specialize (Hclaim os_ok fresh_conn (OpRead 10)).
  specialize (Hclaim _ _ _ _ _ eq_refl eq_refl eq_refl).
  vm_compute in Hclaim. discriminate.
Qed.

(** C4, amended.  After [Close] and any further operations, every [Read]
    and [Write] returns (it never panics) with 0 and the runtime's
    closed-file error, leaves the handle as it is, and makes no call to
    the kernel: no connectx is issued.  On a handle that had connected it
    does not enter [connect]; on a handle that never connected it enters
    [connect], which stops at the closed file before the primitive. *)
Theorem closed_handle_fails (os : oracle) (h : list entry) (c : tfoConn)
  (ops : list op) (o : op) :
  is_read_or_write o = true ->
  exists c1 rs t1 e t2,
    run os h (do_ops c (OpClose :: ops)) = (Returned (c1, rs), t1)
    /\ run os (h ++ t1) (do_op c1 o) = (Returned (c1, 0, Some e), t2)
    /\ is_closed_error e = true
    /\ t2 = Ev MuLock tt
            :: (if connected c1 then []
                else [Ev (EnterConnect (payload_of o)) tt])
            ++ [Ev MuUnlock tt]
    /\ count is_connectx t2 = 0%nat
    /\ connect_invocations t2 = (if connected c1 then 0 else 1)%nat.
Proof.
  intro Hrw.
  destruct (do_op_outcome os h c OpClose)
    as (c0 & n0 & err0 & t0 & Hrun0 & _ & _ & _ & Hclosed0).
  specialize (Hclosed0 eq_refl).
  destruct (do_ops_outcome os ops (h ++ t0) c0)
    as (c1 & rs & t1 & Hrun1 & _ & _ & _ & Hclosed1).
  specialize (Hclosed1 Hclosed0).
  destruct (do_op_closed os (h ++ t0 ++ t1) c1 o Hclosed1 Hrw)
    as (e & Hrun2 & He).
  exists c1, ((n0, err0) :: rs), (t0 ++ t1), e.
  eexists. split.
  { cbn [do_ops]. rewrite run_bind, Hrun0. cbn zeta iota beta.
    rewrite run_bind, Hrun1. cbn. rewrite app_nil_r. reflexivity. }
  split; [exact Hrun2 | ].
  split; [exact He | ]. split; [reflexivity | ].
  destruct (connected c1); split; reflexivity.
Qed.

Lemma closed_handle_fails_witness :
  is_read_or_write (OpWrite hello) = true
  /\ exists c1 e t2,
       run os_ok [Ev (FileClose 3) None] (do_op c1 (OpWrite hello))
       = (Returned (c1, 0, Some e), t2)
       /\ is_closed_error e = true.
Proof.
  split; [reflexivity | ].
  destruct (closed_handle_fails os_ok [] fresh_conn [] (OpWrite hello) eq_refl)
    as (c1 & rs & t1 & e & t2 & Hrun1 & Hrun2 & He & _).
  exists c1, e, t2.
  inversion Hrun1; subst. split; [exact Hrun2 | exact He].
Defined.

(** ** The connectx primitive in [connect] *)

(** EINPROGRESS from connectx is no error: the callback asks to be called
    again, the runtime waits for the descriptor to become writable, and
    the second call of the callback ends the loop without a second
    connectx. *)
Lemma connect_in_progress_polls :
  run os_in_progress [] (connect fresh_conn hello)
  = (Returned (set_laddr fresh_conn (Some loopback), 5, None),
     [Ev (EnterConnect hello) tt;
      Ev (PollPrepareWrite 3) None;
      Ev (Connectx 3 0 None (rsockaddr fresh_conn) hello)
         (5, Some (Errno unix.EINPROGRESS));
      Ev (PollWaitWrite 3) None;
      Ev (GetSocketError 3 "connectx") None;
      Ev (GetLocalAddr 3) (Some loopback, None)]).
Proof. vm_compute. reflexivity. Qed.

(** C5: the code departs from the claim.  When connectx fails with EINVAL
    (not EINPROGRESS), [connect] returns no error at all, and certainly
    not one wrapped with the name connectx: the failure stays in the
    callback's own variable.  [Write] then marks the handle connected. *)
Theorem connect_drops_connectx_failure :
  run os_connectx_fails [] (connect fresh_conn hello)
  = (Returned (set_laddr fresh_conn (Some loopback), 0, None),
     [Ev (EnterConnect hello) tt;
      Ev (PollPrepareWrite 3) None;
      Ev (Connectx 3 0 None (rsockaddr fresh_conn) hello)
         (0, Some (Errno unix.EINVAL));
      Ev (GetSocketError 3 "connectx") None;
      Ev (GetLocalAddr 3) (Some loopback, None)])
  /\ (exists c' t,
        run os_connectx_fails [] (Write fresh_conn hello)
        = (Returned (c', 0, None), t)
        /\ connected c' = true).
Proof.
  split; [vm_compute; reflexivity | ].
  do 2 eexists. split; [vm_compute; reflexivity | reflexivity].
Qed.

(** ** Descriptors on the failure paths of [dialTFO] and [listenTFO] *)

(** [socket] does close the descriptor it created when a later step of
    its own fails. *)
Lemma socket_closes_on_failure (os : oracle) (h : list entry) (domain : Z) :
  forall fd err t,
    run os h (socket domain) = (Returned (fd, Some err), t) ->
    forall fd0,
      In (Some fd0) (map socket_result t) ->
      count (is_close_of fd0) t = 1%nat.
Proof.
  intros fd err t. unfold socket. crunch.
  all: intros Hrun fd0 Hin; inversion Hrun; subst; clear Hrun.
  all: cbn in Hin; repeat destruct Hin as [Hin | Hin]; try contradiction;
    try discriminate.
  all: inversion Hin; subst; unfold count; cbn; rewrite Z.eqb_refl;
    reflexivity.
Qed.

(** C6: the code departs from the claim.  When bind fails, [dialTFO]
    returns the wrapped error and descriptor 3, which [socket] created,
    has not been closed; when enabling TFO fails, [listenTFO] returns the
    error together with the listener, which has not been closed either. *)
Theorem dialTFO_leaves_descriptor_open :
  run os_bind_fails [] (dialTFO "tcp" (Some loopback) (Some loopback))
  = (Returned (None, Some (SyscallError "bind" (Errno unix.EADDRINUSE))),
     [Ev (Socket unix.AF_INET unix.SOCK_STREAM unix.IPPROTO_TCP) (3, None);
      Ev (CloseOnExec 3) tt;
      Ev (SetNonblock 3 true) None;
      Ev (SetsockoptInt 3 unix.IPPROTO_TCP unix.TCP_NODELAY 1) None;
      Ev (Bind 3 (SockaddrInet4 8080 [x7f; x00; x00; x01]))
         (Some (Errno unix.EADDRINUSE))])
  /\ count (is_close_of 3)
       (snd (run os_bind_fails []
               (dialTFO "tcp" (Some loopback) (Some loopback)))) = 0%nat
  /\ run os_setsockopt_fails [] (listenTFO "tcp" "127.0.0.1:0")
     = (Returned (Some (TCPListener 4), Some (Errno unix.EINVAL)),
        [Ev (Listen "tcp" "127.0.0.1:0") (Some (TCPListener 4), None);
         Ev (ListenerSyscallConn 4) None;
         Ev (ListenerControl 4) (4, None);
         Ev (SetsockoptInt 4 unix.IPPROTO_TCP unix.TCP_FASTOPEN 1)
            (Some (Errno unix.EINVAL))])
  /\ count (is_close_of 4)
       (snd (run os_setsockopt_fails [] (listenTFO "tcp" "127.0.0.1:0")))
     = 0%nat.
Proof. repeat split; vm_compute; reflexivity. Qed.

(** ** [dialTFO] *)

Ltac crunch_if :=
  repeat (crunch;
    match goal with
    | |- context [if ?b then _ else _] => destruct b eqn:?
    end); crunch.

Ltac unfold_dial :=
  unfold dialTFO, socket, setIPv6Only, setNoDelay, SetTFODialer, guard,
    slice_to_array.

Lemma slice_to_array_ok (n : nat) (s : list byte) :
  (n <= length s)%nat -> slice_to_array n s = Ret (firstn n s).
Proof.
  intro Hlen. unfold slice_to_array.
  apply Nat.ltb_ge in Hlen. rewrite Hlen. reflexivity.
Qed.

Lemma To4_length (ip : net.IP) :
  is_nil (net.To4 ip) = false -> (4 <= length ip)%nat.
Proof.
  unfold net.To4, net.IPv4len, net.IPv6len.
  destruct (Nat.eqb (length ip) 4) eqn:E4.
  - apply Nat.eqb_eq in E4. lia.
  - destruct (Nat.eqb (length ip) 16) eqn:E16.
    + apply Nat.eqb_eq in E16. lia.
    + cbn. discriminate.
Qed.

(** C7.  When a local address is supplied and its family (IPv4 or IPv6)
    differs from the family of the remote address, [dialTFO] returns
    [ErrMismatchedAddressFamily] without having made a single call: no
    socket was created. *)
Theorem dialTFO_family_mismatch (os : oracle) (h : list entry)
  (network : string) (la ra : net.TCPAddr) (fl fr : family) :
  family_of (net.IP_ la) = Some fl ->
  family_of (net.IP_ ra) = Some fr ->
  fl <> fr ->
  run os h (dialTFO network (Some la) (Some ra))
  = (Returned (None, Some ErrMismatchedAddressFamily), []).
Proof.
  unfold family_of, net.IPv6len. intros Hl Hr Hneq.
  unfold dialTFO.
  destruct (is_nil (net.To4 (net.IP_ ra))) eqn:Era;
    destruct (is_nil (net.To4 (net.IP_ la))) eqn:Ela;
    cbn [negb] in Hl, Hr |- *.
  - destruct (Nat.eqb (length (net.IP_ la)) 16);
      destruct (Nat.eqb (length (net.IP_ ra)) 16); congruence.
  - destruct (Nat.eqb (length (net.IP_ ra)) 16) eqn:E16; [ | discriminate].
    apply Nat.eqb_eq in E16.
    rewrite slice_to_array_ok by lia. reflexivity.
  - rewrite slice_to_array_ok by (apply To4_length; exact Era).
    reflexivity.
  - congruence.
Qed.

Lemma dialTFO_family_mismatch_witness :
  family_of (net.IP_ loopback) = Some IPv4
  /\ family_of (net.IP_ loopback6) = Some IPv6
  /\ IPv4 <> IPv6
  /\ run os_ok [] (dialTFO "tcp" (Some loopback) (Some loopback6))
     = (Returned (None, Some ErrMismatchedAddressFamily), []).
Proof.
  split; [reflexivity | ]. split; [reflexivity | ].
  split; [discriminate | ].
  apply (dialTFO_family_mismatch os_ok [] "tcp" loopback loopback6
           (fl := IPv4) (fr := IPv6)).
  - reflexivity.
  - reflexivity.
  - discriminate.
Defined.

(** C10.  Whenever [dialTFO] returns a handle, it returns no error, and
    the run contains the call that sets TCP_NODELAY to 1 on the
    descriptor of that handle, answered without error; the handle is not
    yet connected. *)
Theorem dialTFO_sets_nodelay (os : oracle) (h : list entry)
  (network : string) (laddr raddr : option net.TCPAddr)
  (c : tfoConn) (err : option error) (t : list entry) :
  run os h (dialTFO network laddr raddr) = (Returned (Some c, err), t) ->
  err = None
  /\ In (Ev (SetsockoptInt (fd c) unix.IPPROTO_TCP unix.TCP_NODELAY 1) None) t
  /\ connected c = false.
Proof.
  unfold_dial.
  destruct raddr as [ra | ]; [ | discriminate].
  destruct laddr as [la | ]; crunch_if.
  all: intro Hrun; inversion Hrun; subst; clear Hrun.
  all: repeat split; cbn; auto 10.
Qed.

Lemma dialTFO_sets_nodelay_witness :
  exists c t,
    run os_ok [] (dialTFO "tcp" None (Some loopback))
    = (Returned (Some c, None), t)
    /\ In (Ev (SetsockoptInt (fd c) unix.IPPROTO_TCP unix.TCP_NODELAY 1) None) t.
Proof.
  do 2 eexists. split; [vm_compute; reflexivity | ].
  apply (dialTFO_sets_nodelay os_ok [] "tcp" None (Some loopback)
           (err := None)).
  vm_compute. reflexivity.
Defined.

(** ** Socket options *)

Lemma int_small (x : Z) : in_int64 x -> int x = x.
Proof.
  unfold in_int64, int, wrap_signed. intro Hx.
  change (2 ^ 64) with 18446744073709551616.
  change (2 ^ (64 - 1)) with 9223372036854775808.
  change (2 ^ 63) with 9223372036854775808 in Hx.
  destruct (Z_lt_le_dec x 0) as [Hneg | Hpos].
  - replace (x mod 18446744073709551616)
      with (x + 18446744073709551616).
    + destruct (Z.ltb_spec (x + 18446744073709551616) 9223372036854775808);
        lia.
    + apply Z.mod_unique with (q := -1); lia.
  - rewrite Z.mod_small by lia.
    destruct (Z.ltb_spec x 9223372036854775808); lia.
Qed.

(** [roundDurationUp] yields the least number of units that is not
    shorter than the duration. *)
Lemma roundDurationUp_ceiling (d to : Z) :
  0 < to ->
  d <= roundDurationUp d to * to < d + to.
Proof.
  intro Hto. unfold roundDurationUp.
  pose proof (Z.div_mod (d + to - 1) to ltac:(lia)) as Hdiv.
  pose proof (Z.mod_pos_bound (d + to - 1) to Hto) as Hmod.
  nia.
Qed.

(** C8.  For every duration, [setKeepAlivePeriod] hands the kernel a
    whole number of seconds that is not shorter than the duration and
    less than one second longer: it rounds up.  It first sets
    TCP_KEEPINTVL to that number and, when the kernel accepts it, sets
    TCP_KEEPALIVE to the same number and returns the kernel's answer; when
    the first call fails, its error is returned.  For 1500ms the number
    is 2. *)
Theorem setKeepAlivePeriod_rounds_up (os : oracle) (h : list entry)
  (fd d : Z) :
  in_int64 d ->
  exists secs r1,
    d <= secs * time.Second < d + time.Second
    /\ (d = 1500 * time.Millisecond -> secs = 2)
    /\ r1 = os _ h (SetsockoptInt fd unix.IPPROTO_TCP unix.TCP_KEEPINTVL secs)
    /\ let e1 :=
         Ev (SetsockoptInt fd unix.IPPROTO_TCP unix.TCP_KEEPINTVL secs) r1 in
       run os h (setKeepAlivePeriod fd d)
       = match r1 with
         | Some e => (Returned (Some e), [e1])
         | None =>
             let r2 :=
               os _ (h ++ [e1])
                 (SetsockoptInt fd unix.IPPROTO_TCP unix.TCP_KEEPALIVE secs) in
             (Returned r2,
              [e1;
               Ev (SetsockoptInt fd unix.IPPROTO_TCP unix.TCP_KEEPALIVE secs)
                  r2])
         end.
Proof.
  intro Hd.
  pose proof (roundDurationUp_ceiling d (to := time.Second) eq_refl) as Hceil.
  assert (Hint : int (roundDurationUp d time.Second)
                 = roundDurationUp d time.Second).
  { apply int_small. unfold in_int64, time.Second in *.
    change (2 ^ 63) with 9223372036854775808 in *. lia. }
  exists (roundDurationUp d time.Second). eexists.
  split; [exact Hceil | ]. split.
  { intros ->. reflexivity. }
  split; [reflexivity | ].
  unfold setKeepAlivePeriod, guard. rewrite Hint.
  cbn zeta. rewrite run_bind, run_perform. cbn zeta iota beta.
  destruct (os _ h
              (SetsockoptInt fd unix.IPPROTO_TCP unix.TCP_KEEPINTVL
                 (roundDurationUp d time.Second))); reflexivity.
Qed.

Lemma setKeepAlivePeriod_rounds_up_witness :
  in_int64 (1500 * time.Millisecond)
  /\ exists secs,
       1500 * time.Millisecond <= secs * time.Second
       /\ secs = 2
       /\ run os_ok [] (setKeepAlivePeriod 3 (1500 * time.Millisecond))
          = (Returned None,
             [Ev (SetsockoptInt 3 unix.IPPROTO_TCP unix.TCP_KEEPINTVL secs)
                 None;
              Ev (SetsockoptInt 3 unix.IPPROTO_TCP unix.TCP_KEEPALIVE secs)
                 None]).
Proof.
  assert (Hd : in_int64 (1500 * time.Millisecond)).
  { unfold in_int64, time.Millisecond.
    change (2 ^ 63) with 9223372036854775808. lia. }
  split; [exact Hd | ].
  destruct (setKeepAlivePeriod_rounds_up os_ok [] 3 Hd)
    as (secs & r1 & Hceil & Htwo & Hr1 & Hrun).
  exists secs. split; [apply Hceil | ]. split; [apply Htwo; reflexivity | ].
  rewrite (Htwo eq_refl) in *. vm_compute. reflexivity.
Defined.

(** C9, as stated, fails for [setIPv6Only]: the kernel refuses
    IPV6_V6ONLY and the setter still returns nil. *)
Lemma setIPv6Only_hides_failure :
  ~ (forall (os : oracle) (fd family ipv6only : Z) r t,
       run os [] (setIPv6Only fd family ipv6only) = (Returned r, t) ->
       setsockopt_errors t <> [] ->
       r <> None).
Proof.
  intro Hclaim.
  apply (Hclaim os_setsockopt_fails 3 unix.AF_INET6 0 None _ eq_refl).
  - vm_compute. discriminate.
  - reflexivity.
Qed.

(** C9, amended.  [setNoDelay], [setKeepAlive] and [setLinger] each
    issue exactly one setsockopt call (TCP_NODELAY, SO_KEEPALIVE,
    SO_LINGER) on the descriptor and return what the kernel answers to
    it; [setKeepAlivePeriod] issues TCP_KEEPINTVL, returns its error when
    it fails, and otherwise issues TCP_KEEPALIVE and returns what the
    kernel answers to that.  So each returns exactly the error of the
    setsockopt call that failed, and nil when none failed, and where the
    kernel refuses the options each of them does fail.  [setIPv6Only]
    issues IPV6_V6ONLY for an AF_INET6 socket only, ignores what the
    kernel answers and always returns nil. *)
Theorem setters_return_setsockopt_error (os : oracle) (h : list entry)
  (fd v d family : Z) :
  (let r := os _ h (SetsockoptInt fd unix.IPPROTO_TCP unix.TCP_NODELAY v) in
   run os h (setNoDelay fd v)
   = (Returned r,
      [Ev (SetsockoptInt fd unix.IPPROTO_TCP unix.TCP_NODELAY v) r]))
  /\ (let r :=
        os _ h (SetsockoptInt fd unix.SOL_SOCKET unix.SO_KEEPALIVE v) in
      run os h (setKeepAlive fd v)
      = (Returned r,
         [Ev (SetsockoptInt fd unix.SOL_SOCKET unix.SO_KEEPALIVE v) r]))
  /\ (let l :=
        if v >=? 0 then {| Onoff := 1; Linger_ := int32 v |}
        else {| Onoff := 0; Linger_ := 0 |} in
      let r :=
        os _ h (SetsockoptLinger fd unix.SOL_SOCKET unix.SO_LINGER l) in
      run os h (setLinger fd v)
      = (Returned r,
         [Ev (SetsockoptLinger fd unix.SOL_SOCKET unix.SO_LINGER l) r]))
  /\ (let secs := int (roundDurationUp d time.Second) in
      let r1 :=
        os _ h (SetsockoptInt fd unix.IPPROTO_TCP unix.TCP_KEEPINTVL secs) in
      let e1 :=
        Ev (SetsockoptInt fd unix.IPPROTO_TCP unix.TCP_KEEPINTVL secs) r1 in
      run os h (setKeepAlivePeriod fd d)
      = match r1 with
        | Some e => (Returned (Some e), [e1])
        | None =>
            let r2 :=
              os _ (h ++ [e1])
                (SetsockoptInt fd unix.IPPROTO_TCP unix.TCP_KEEPALIVE secs) in
            (Returned r2,
             [e1;
              Ev (SetsockoptInt fd unix.IPPROTO_TCP unix.TCP_KEEPALIVE secs)
                 r2])
        end)
  /\ (exists r t,
        run os h (setNoDelay fd v) = (Returned r, t)
        /\ setsockopt_errors t = error_list r)
  /\ (exists r t,
        run os h (setKeepAlive fd v) = (Returned r, t)
        /\ setsockopt_errors t = error_list r)
  /\ (exists r t,
        run os h (setLinger fd v) = (Returned r, t)
        /\ setsockopt_errors t = error_list r)
  /\ (exists r t,
        run os h (setKeepAlivePeriod fd d) = (Returned r, t)
        /\ setsockopt_errors t = error_list r)
  /\ (fst (run os_setsockopt_fails h (setNoDelay fd v))
      = Returned (Some (Errno unix.EINVAL))
      /\ fst (run os_setsockopt_fails h (setKeepAlive fd v))
         = Returned (Some (Errno unix.EINVAL))
      /\ fst (run os_setsockopt_fails h (setLinger fd v))
         = Returned (Some (Errno unix.EINVAL))
      /\ fst (run os_setsockopt_fails h (setKeepAlivePeriod fd d))
         = Returned (Some (Errno unix.EINVAL)))
  /\ run os h (setIPv6Only fd family v)
     = (Returned None,
        if family =? unix.AF_INET6 then
          [Ev (SetsockoptInt fd unix.IPPROTO_IPV6 unix.IPV6_V6ONLY v)
              (os _ h (SetsockoptInt fd unix.IPPROTO_IPV6 unix.IPV6_V6ONLY v))]
        else []).
Proof.
  split; [reflexivity | ].
  split; [reflexivity | ].
  split; [reflexivity | ].
  split.
  { unfold setKeepAlivePeriod, guard. cbn zeta.
    rewrite run_bind, run_perform. cbn zeta iota beta.
    destruct (os _ h
                (SetsockoptInt fd unix.IPPROTO_TCP unix.TCP_KEEPINTVL
                   (int (roundDurationUp d time.Second)))); reflexivity. }
  split.
  { unfold setNoDelay. crunch; do 2 eexists; split; reflexivity. }
  split.
  { unfold setKeepAlive. crunch; do 2 eexists; split; reflexivity. }
  split.
  { unfold setLinger. crunch; do 2 eexists; split; reflexivity. }
  split.
  { unfold setKeepAlivePeriod, guard.
    generalize (int (roundDurationUp d time.Second)). intro secs.
    crunch; do 2 eexists; split; reflexivity. }
  split.
  { repeat split; reflexivity. }
  unfold setIPv6Only.
  destruct (family =? unix.AF_INET6); reflexivity.
Qed.

Lemma Read_connects_first_witness :
  connected fresh_conn = false
  /\ exists c1 n err t,
       run os_ok ([] ++ [Ev MuLock tt]) (connect fresh_conn [])
       = (Returned (c1, n, err), Ev (EnterConnect []) tt :: t)
       /\ count is_file_read
            (Ev MuLock tt :: Ev (EnterConnect []) tt :: t ++ [Ev MuUnlock tt])
          = 0%nat.
Proof.
  split; [reflexivity | ].
  destruct (Read_connects_first os_ok [] fresh_conn 10 hello eq_refl)
    as (c1 & n & err & t & Hrun & Hcount & _).
  exists c1, n, err, t. split; assumption.
Defined.

(** * Further properties *)

(** ** [socket] *)

(** X1.  Whenever [socket] returns without error, it made exactly three
    calls: it created a TCP stream socket of the domain, marked the
    returned descriptor close-on-exec and switched it to non-blocking;
    the descriptor it returns is the one the kernel handed out, and it
    has not been closed. *)
Theorem socket_success (os : oracle) (h : list entry) (domain fd : Z)
  (t : list entry) :
  run os h (socket domain) = (Returned (fd, None), t) ->
  t = [Ev (Socket domain unix.SOCK_STREAM unix.IPPROTO_TCP) (fd, None);
       Ev (CloseOnExec fd) tt;
       Ev (SetNonblock fd true) None]
  /\ count (is_close_of fd) t = 0%nat.
Proof.
  unfold socket. crunch.
  all: intro Hrun; inversion Hrun; subst; clear Hrun.
  split; reflexivity.
Qed.

Lemma socket_success_witness :
  run os_ok [] (socket unix.AF_INET) = (Returned (3, None),
    [Ev (Socket unix.AF_INET unix.SOCK_STREAM unix.IPPROTO_TCP) (3, None);
     Ev (CloseOnExec 3) tt;
     Ev (SetNonblock 3 true) None]).
Proof.
  assert (Hrun : exists t, run os_ok [] (socket unix.AF_INET)
                           = (Returned (3, None), t))
    by (eexists; vm_compute; reflexivity).
  destruct Hrun as [t Hrun]. rewrite Hrun.
  destruct (socket_success os_ok [] unix.AF_INET Hrun) as [-> _].
  reflexivity.
Defined.

(** X2.  Whenever [socket] returns an error, no descriptor is left open:
    either the kernel created none and its error is returned as it is,
    or switching to non-blocking failed, the descriptor was closed, and
    the descriptor returned with the error is 0. *)
Theorem socket_failure (os : oracle) (h : list entry) (domain fd : Z)
  (e : error) (t : list entry) :
  run os h (socket domain) = (Returned (fd, Some e), t) ->
  t = [Ev (Socket domain unix.SOCK_STREAM unix.IPPROTO_TCP) (fd, Some e)]
  \/ (fd = 0
      /\ exists fd0 r,
           t = [Ev (Socket domain unix.SOCK_STREAM unix.IPPROTO_TCP)
                   (fd0, None);
                Ev (CloseOnExec fd0) tt;
                Ev (SetNonblock fd0 true) (Some e);
                Ev (SysClose fd0) r]
           /\ count (is_close_of fd0) t = 1%nat).
Proof.
  unfold socket. crunch.
  all: intro Hrun; inversion Hrun; subst; clear Hrun.
  - left. reflexivity.
  - right. split; [reflexivity | ]. do 2 eexists. split; [reflexivity | ].
    unfold count. cbn. rewrite Z.eqb_refl. reflexivity.
  - right. split; [reflexivity | ]. do 2 eexists. split; [reflexivity | ].
    unfold count. cbn. rewrite Z.eqb_refl. reflexivity.
Qed.

Lemma socket_failure_witness :
  exists t,
    run os_nonblock_fails [] (socket unix.AF_INET)
    = (Returned (0, Some (Errno unix.EINVAL)), t)
    /\ count (is_close_of 3) t = 1%nat.
Proof.
  eexists. split; [vm_compute; reflexivity | ].
  destruct (socket_failure os_nonblock_fails [] unix.AF_INET
              (fd := 0) (e := Errno unix.EINVAL)
              (t := [Ev (Socket unix.AF_INET unix.SOCK_STREAM unix.IPPROTO_TCP)
                        (3, None);
                     Ev (CloseOnExec 3) tt;
                     Ev (SetNonblock 3 true) (Some (Errno unix.EINVAL));
                     Ev (SysClose 3) None]))
    as [Habs | [_ _]].
  - vm_compute. reflexivity.
  - apply (f_equal (@length entry)) in Habs. discriminate Habs.
  - reflexivity.
Defined.

(** ** More on [dialTFO] *)

(** Every run of [dialTFO] that returns a handle, in full: the handle and
    the calls. *)
Lemma dialTFO_success (os : oracle) (h : list entry) (network : string)
  (laddr raddr : option net.TCPAddr) (c : tfoConn) (err : option error)
  (t : list entry) :
  run os h (dialTFO network laddr raddr) = (Returned (Some c, err), t) ->
  exists ra r6,
    raddr = Some ra
    /\ c = {| fd := fd c; f := os.NewFile (fd c); connected := false;
              network := network; laddr := laddr; raddr := raddr;
              lsockaddr := local_sockaddr laddr ra;
              rsockaddr := sockaddr_of ra |}
    /\ t = [Ev (Socket (domain_of ra) unix.SOCK_STREAM unix.IPPROTO_TCP)
               (fd c, None);
            Ev (CloseOnExec (fd c)) tt;
            Ev (SetNonblock (fd c) true) None]
           ++ (if is_nil (net.To4 (net.IP_ ra))
               then [Ev (SetsockoptInt (fd c) unix.IPPROTO_IPV6
                           unix.IPV6_V6ONLY
                           (if String.eqb network "tcp6" then 1 else 0)) r6]
               else [])
           ++ [Ev (SetsockoptInt (fd c) unix.IPPROTO_TCP unix.TCP_NODELAY 1)
                  None]
           ++ (if is_nil laddr then []
               else [Ev (Bind (fd c) (local_sockaddr laddr ra)) None]).
Proof.
  unfold_dial.
  destruct raddr as [ra | ]; [ | discriminate].
  unfold local_sockaddr, sockaddr_of, domain_of.
  destruct (is_nil (net.To4 (net.IP_ ra))) eqn:Era;
    destruct laddr as [la | ];
    try destruct (is_nil (net.To4 (net.IP_ la))) eqn:Ela;
    crunch_if.
  all: intro Hrun; inversion Hrun; subst; clear Hrun.
  all: exists ra; eexists; split; [reflexivity | ].
  all: rewrite ?Era, ?Ela; cbn [fd is_nil app]; split; reflexivity.
  Unshelve. all: exact None.
Qed.

(** X3.  Every successful [dialTFO] makes the same calls in the same
    order: the three calls of [socket]; for an IPv6 remote only,
    IPV6_V6ONLY, set to 1 for network tcp6 and to 0 otherwise, whatever
    the kernel answers to it; TCP_NODELAY; and a bind to the local socket
    address exactly when a local address was supplied. *)
Theorem dialTFO_call_order (os : oracle) (h : list entry) (network : string)
  (laddr raddr : option net.TCPAddr) (c : tfoConn) (err : option error)
  (t : list entry) :
  run os h (dialTFO network laddr raddr) = (Returned (Some c, err), t) ->
  exists ra r6,
    raddr = Some ra
    /\ t = [Ev (Socket (domain_of ra) unix.SOCK_STREAM unix.IPPROTO_TCP)
               (fd c, None);
            Ev (CloseOnExec (fd c)) tt;
            Ev (SetNonblock (fd c) true) None]
           ++ (if is_nil (net.To4 (net.IP_ ra))
               then [Ev (SetsockoptInt (fd c) unix.IPPROTO_IPV6
                           unix.IPV6_V6ONLY
                           (if String.eqb network "tcp6" then 1 else 0)) r6]
               else [])
           ++ [Ev (SetsockoptInt (fd c) unix.IPPROTO_TCP unix.TCP_NODELAY 1)
                  None]
           ++ (if is_nil laddr then []
               else [Ev (Bind (fd c) (lsockaddr c)) None]).
Proof.
  intro Hrun.
  destruct (dialTFO_success _ _ _ _ _ Hrun) as (ra & r6 & Hra & Hc & Ht).
  exists ra, r6. split; [exact Hra | ].
  pose proof (f_equal lsockaddr Hc) as Hl. cbn in Hl.
  rewrite Hl. exact Ht.
Qed.

Lemma dialTFO_call_order_witness :
  exists c t,
    run os_ok [] (dialTFO "tcp6" (Some loopback6) (Some loopback6))
    = (Returned (Some c, None), t)
    /\ count is_bind t = 1%nat
    /\ length t = 6%nat.
Proof.
  assert (Hrun : exists c t,
             run os_ok [] (dialTFO "tcp6" (Some loopback6) (Some loopback6))
             = (Returned (Some c, None), t))
    by (do 2 eexists; vm_compute; reflexivity).
  destruct Hrun as (c & t & Hrun). exists c, t. split; [exact Hrun | ].
  destruct (dialTFO_call_order _ _ _ _ _ Hrun) as (ra & r6 & Hra & Ht).
  inversion Hra; subst ra. rewrite Ht. split; reflexivity.
Defined.

(** X4.  The handle a successful [dialTFO] returns is not connected, its
    file is open on the descriptor [socket] created, and it carries the
    network and the two addresses as they were passed. *)
Theorem dialTFO_handle (os : oracle) (h : list entry) (nw : string)
  (local remote : option net.TCPAddr) (c : tfoConn) (err : option error)
  (t : list entry) :
  run os h (dialTFO nw local remote) = (Returned (Some c, err), t) ->
  connected c = false
  /\ f c = os.NewFile (fd c)
  /\ In (Some (fd c)) (map socket_result t)
  /\ count (is_close_of (fd c)) t = 0%nat
  /\ network c = nw
  /\ laddr c = local
  /\ raddr c = remote.
Proof.
  intro Hrun.
  destruct (dialTFO_success _ _ _ _ _ Hrun) as (ra & r6 & Hra & Hc & Ht).
  split; [exact (f_equal connected Hc) | ].
  split; [exact (f_equal f Hc) | ].
  split; [rewrite Ht; left; reflexivity | ].
  split.
  { rewrite Ht. destruct (is_nil (net.To4 (net.IP_ ra))), (is_nil local);
      reflexivity. }
  split; [exact (f_equal network Hc) | ].
  split; [exact (f_equal laddr Hc) | exact (f_equal raddr Hc)].
Qed.

Lemma dialTFO_handle_witness :
  exists c t,
    run os_ok [] (dialTFO "tcp" None (Some loopback))
    = (Returned (Some c, None), t)
    /\ connected c = false
    /\ raddr c = Some loopback.
Proof.
  assert (Hrun : exists c t,
             run os_ok [] (dialTFO "tcp" None (Some loopback))
             = (Returned (Some c, None), t))
    by (do 2 eexists; vm_compute; reflexivity).
  destruct Hrun as (c & t & Hrun). exists c, t. split; [exact Hrun | ].
  destruct (dialTFO_handle _ _ _ _ _ Hrun)
    as (Hconn & _ & _ & _ & _ & _ & Hraddr).
  split; assumption.
Defined.

Lemma firstn_whole (n : nat) (s : list byte) :
  length s = n -> firstn n s = s.
Proof. intros <-. apply firstn_all. Qed.

Lemma To4_of_four (ip : net.IP) :
  length ip = 4%nat -> is_nil (net.To4 ip) = false.
Proof.
  intro Hlen. unfold net.To4, net.IPv4len. rewrite Hlen. reflexivity.
Qed.

(** A 16-byte address [To4] accepts starts with four zero bytes. *)
Lemma mapped_prefix (ip : net.IP) :
  length ip = 16%nat ->
  is_nil (net.To4 ip) = false ->
  firstn 4 ip = zero_bytes 4.
Proof.
  intros Hlen. unfold net.To4, net.IPv4len, net.IPv6len. rewrite Hlen.
  cbn [Nat.eqb].
  do 16 (destruct ip as [ | ? ip]; [discriminate Hlen | ]).
  cbn [firstn forallb]. unfold net.is_zero_byte.
  repeat match goal with
         | |- context [Byte.eqb ?b x00] =>
             is_var b; destruct (Byte.eqb b x00) eqn:?
         end; cbn; try discriminate.
  intros _.
  repeat match goal with
         | H : Byte.eqb _ x00 = true |- _ => apply byte_dec_bl in H; subst
         end.
  reflexivity.
Qed.

(** X5.  For a remote address of four bytes the remote socket address of
    the handle is the IPv4 address and port as given; for a remote
    address of sixteen bytes that is no IPv4-mapped address it is the
    IPv6 address and port as given, with zone 0 whatever the zone of the
    address. *)
Theorem dialTFO_remote_sockaddr (os : oracle) (h : list entry) (nw : string)
  (local : option net.TCPAddr) (ra : net.TCPAddr) (c : tfoConn)
  (err : option error) (t : list entry) :
  run os h (dialTFO nw local (Some ra)) = (Returned (Some c, err), t) ->
  (length (net.IP_ ra) = 4%nat ->
   rsockaddr c = SockaddrInet4 (net.Port ra) (net.IP_ ra))
  /\ (length (net.IP_ ra) = 16%nat ->
      is_nil (net.To4 (net.IP_ ra)) = true ->
      rsockaddr c = SockaddrInet6 (net.Port ra) 0 (net.IP_ ra)).
Proof.
  intro Hrun.
  destruct (dialTFO_success _ _ _ _ _ Hrun) as (ra' & r6 & Hra & Hc & _).
  inversion Hra; subst ra'. clear Hra.
  pose proof (f_equal rsockaddr Hc) as Hr. cbn in Hr. rewrite Hr.
  unfold sockaddr_of. split.
  - intro Hlen. rewrite (To4_of_four _ Hlen), (firstn_whole _ Hlen).
    reflexivity.
  - intros Hlen Hnil. rewrite Hnil, (firstn_whole _ Hlen). reflexivity.
Qed.

Lemma dialTFO_remote_sockaddr_witness :
  exists c t,
    run os_ok [] (dialTFO "tcp" None (Some loopback))
    = (Returned (Some c, None), t)
    /\ rsockaddr c = SockaddrInet4 8080 [x7f; x00; x00; x01].
Proof.
  assert (Hrun : exists c t,
             run os_ok [] (dialTFO "tcp" None (Some loopback))
             = (Returned (Some c, None), t))
    by (do 2 eexists; vm_compute; reflexivity).
  destruct Hrun as (c & t & Hrun). exists c, t. split; [exact Hrun | ].
  destruct (dialTFO_remote_sockaddr _ _ _ _ _ Hrun) as [H4 _].
  apply H4. reflexivity.
Defined.

(** X6.  For a remote IPv4 address in the 16-byte IPv4-mapped form, the
    remote socket address of the handle is an IPv4 address made of the
    first four bytes of the slice, which are zero: the handle will connect
    to 0.0.0.0 on the port, not to the address. *)
Theorem dialTFO_mapped_remote (os : oracle) (h : list entry) (nw : string)
  (local : option net.TCPAddr) (ra : net.TCPAddr) (c : tfoConn)
  (err : option error) (t : list entry) :
  length (net.IP_ ra) = 16%nat ->
  is_nil (net.To4 (net.IP_ ra)) = false ->
  run os h (dialTFO nw local (Some ra)) = (Returned (Some c, err), t) ->
  rsockaddr c = SockaddrInet4 (net.Port ra) (zero_bytes 4).
Proof.
  intros Hlen Hmapped Hrun.
  destruct (dialTFO_success _ _ _ _ _ Hrun) as (ra' & r6 & Hra & Hc & _).
  inversion Hra; subst ra'. clear Hra.
  pose proof (f_equal rsockaddr Hc) as Hr. cbn in Hr. rewrite Hr.
  unfold sockaddr_of. rewrite Hmapped, (mapped_prefix _ Hlen Hmapped).
  reflexivity.
Qed.

Lemma dialTFO_mapped_remote_witness :
  net.To4 (net.IP_ loopback_mapped) = Some [x7f; x00; x00; x01]
  /\ exists c t,
       run os_ok [] (dialTFO "tcp" None (Some loopback_mapped))
       = (Returned (Some c, None), t)
       /\ rsockaddr c = SockaddrInet4 8080 [x00; x00; x00; x00].
Proof.
  split; [reflexivity | ].
  assert (Hrun : exists c t,
             run os_ok [] (dialTFO "tcp" None (Some loopback_mapped))
             = (Returned (Some c, None), t))
    by (do 2 eexists; vm_compute; reflexivity).
  destruct Hrun as (c & t & Hrun). exists c, t. split; [exact Hrun | ].
  apply (dialTFO_mapped_remote os_ok [] "tcp" None loopback_mapped
           eq_refl eq_refl Hrun).
Defined.

Lemma To4_of_short (ip : net.IP) :
  length ip <> 4%nat -> (length ip < 16)%nat -> is_nil (net.To4 ip) = true.
Proof.
  intros H4 H16. unfold net.To4, net.IPv4len, net.IPv6len.
  destruct (Nat.eqb_spec (length ip) 4); [contradiction | ].
  destruct (Nat.eqb_spec (length ip) 16); [lia | reflexivity].
Qed.

Lemma slice_to_array_short (n : nat) (s : list byte) :
  (length s < n)%nat -> slice_to_array n s = Panic.
Proof.
  intro Hlen. unfold slice_to_array.
  apply Nat.ltb_lt in Hlen. rewrite Hlen. reflexivity.
Qed.

(** X7.  A remote address whose IP is neither four bytes nor at least
    sixteen bytes long (the nil IP of an address given by port only is
    one) makes [dialTFO] panic before any call is made, whatever the
    network and the local address. *)
Theorem dialTFO_panics_on_short_remote (os : oracle) (h : list entry)
  (nw : string) (local : option net.TCPAddr) (ra : net.TCPAddr) :
  length (net.IP_ ra) <> 4%nat ->
  (length (net.IP_ ra) < 16)%nat ->
  run os h (dialTFO nw local (Some ra)) = (Panicked, []).
Proof.
  intros H4 H16. unfold dialTFO.
  rewrite (To4_of_short _ H4 H16). cbn [negb is_nil].
  rewrite (slice_to_array_short (n := 16) _ H16). reflexivity.
Qed.

Lemma dialTFO_panics_on_short_remote_witness :
  length (net.IP_ no_ip) <> 4%nat
  /\ (length (net.IP_ no_ip) < 16)%nat
  /\ run os_ok [] (dialTFO "tcp" None (Some no_ip)) = (Panicked, []).
Proof.
  assert (H4 : length (net.IP_ no_ip) <> 4%nat) by (cbn; lia).
  assert (H16 : (length (net.IP_ no_ip) < 16)%nat) by (cbn; lia).
  split; [exact H4 | ]. split; [exact H16 | ].
  apply (dialTFO_panics_on_short_remote os_ok [] "tcp" None no_ip H4 H16).
Defined.

(** X8.  A local address whose IP is neither four bytes nor at least
    sixteen bytes long (such as an address given by port only) never
    dials: with an IPv4 remote [dialTFO] returns
    [ErrMismatchedAddressFamily], with a sixteen-byte IPv6 remote it
    panics, and in both cases no call is made. *)
Theorem dialTFO_rejects_short_local (os : oracle) (h : list entry)
  (nw : string) (la ra : net.TCPAddr) :
  length (net.IP_ la) <> 4%nat ->
  (length (net.IP_ la) < 16)%nat ->
  match family_of (net.IP_ ra) with
  | Some IPv4 =>
      run os h (dialTFO nw (Some la) (Some ra))
      = (Returned (None, Some ErrMismatchedAddressFamily), [])
  | Some IPv6 =>
      run os h (dialTFO nw (Some la) (Some ra)) = (Panicked, [])
  | None => True
  end.
Proof.
  intros H4 H16. unfold family_of, dialTFO, net.IPv6len.
  rewrite (To4_of_short _ H4 H16).
  destruct (is_nil (net.To4 (net.IP_ ra))) eqn:Era; cbn [negb is_nil].
  - destruct (Nat.eqb_spec (length (net.IP_ ra)) 16) as [Hlen | ];
      [ | exact I].
    rewrite slice_to_array_ok by lia. cbn.
    rewrite (slice_to_array_short (n := 16) _ H16). reflexivity.
  - rewrite slice_to_array_ok by (apply To4_length; exact Era).
    reflexivity.
Qed.

Lemma dialTFO_rejects_short_local_witness :
  run os_ok [] (dialTFO "tcp" (Some no_ip) (Some loopback))
  = (Returned (None, Some ErrMismatchedAddressFamily), [])
  /\ run os_ok [] (dialTFO "tcp" (Some no_ip) (Some loopback6))
     = (Panicked, []).
Proof.
  assert (H4 : length (net.IP_ no_ip) <> 4%nat) by (cbn; lia).
  assert (H16 : (length (net.IP_ no_ip) < 16)%nat) by (cbn; lia).
  split.
  - apply (dialTFO_rejects_short_local os_ok [] "tcp" no_ip loopback H4 H16).
  - apply (dialTFO_rejects_short_local os_ok [] "tcp" no_ip loopback6 H4 H16).
Defined.

(** X9.  Whenever [dialTFO] returns an error it returns no handle, and
    the error tells the step that failed: it is
    [ErrMismatchedAddressFamily], and then no call was made, or it is the
    error of a failed call wrapped with the name of its step: socket for
    the creation of the socket and the switch to non-blocking, setsockopt
    for TCP_NODELAY, bind for the bind. *)
Theorem dialTFO_error_names_step (os : oracle) (h : list entry)
  (nw : string) (local remote : option net.TCPAddr)
  (r : option tfoConn) (e : error) (t : list entry) :
  run os h (dialTFO nw local remote) = (Returned (r, Some e), t) ->
  r = None
  /\ ((e = ErrMismatchedAddressFamily /\ t = [])
      \/ exists name cause,
           e = SyscallError name cause
           /\ In (Some (name, cause)) (map failed_step t)).
Proof.
  unfold_dial.
  destruct remote as [ra | ]; [ | discriminate].
  destruct local as [la | ]; crunch_if.
  all: intro Hrun; inversion Hrun; subst; clear Hrun.
  all: split; [reflexivity | ].
  all: first
         [ left; split; reflexivity
         | right; do 2 eexists; split; [reflexivity | ]; cbn; auto 10 ].
Qed.

Lemma dialTFO_error_names_step_witness :
  exists t,
    run os_bind_fails [] (dialTFO "tcp" (Some loopback) (Some loopback))
    = (Returned (None, Some (SyscallError "bind" (Errno unix.EADDRINUSE))), t)
    /\ In (Some ("bind", Errno unix.EADDRINUSE)) (map failed_step t).
Proof.
  assert (Hrun : exists t,
             run os_bind_fails []
               (dialTFO "tcp" (Some loopback) (Some loopback))
             = (Returned
                  (None, Some (SyscallError "bind" (Errno unix.EADDRINUSE))),
                t))
    by (eexists; vm_compute; reflexivity).
  destruct Hrun as (t & Hrun). exists t. split; [exact Hrun | ].
  destruct (dialTFO_error_names_step _ _ _ _ _ Hrun)
    as [_ [[Habs _] | (name & cause & He & Hin)]].
  - discriminate Habs.
  - inversion He; subst. exact Hin.
Defined.

(** ** [listenTFO] *)

(** X10.  Whenever [listenTFO] returns a listener, it made exactly four
    calls: the listen, the listener's [SyscallConn], its [Control], and
    one setsockopt that sets TCP_FASTOPEN to 1 on the descriptor
    [Control] passed, so after bind and listen; the error it returns
    with the listener is the answer to that setsockopt, and the listener
    has not been closed. *)
Theorem listenTFO_enables_after_listen (os : oracle) (h : list entry)
  (nw address : string) (ln : Listener) (err : option error)
  (t : list entry) :
  run os h (listenTFO nw address) = (Returned (Some ln, err), t) ->
  exists id fd,
    ln = TCPListener id
    /\ t = [Ev (Listen nw address) (Some ln, None);
            Ev (ListenerSyscallConn id) None;
            Ev (ListenerControl id) (fd, None);
            Ev (SetsockoptInt (int fd) unix.IPPROTO_TCP unix.TCP_FASTOPEN 1)
               err]
    /\ count is_listener_close t = 0%nat.
Proof.
  unfold listenTFO, ListenerRawControl, SetTFOListener, guard. crunch.
  all: intro Hrun; inversion Hrun; subst; clear Hrun.
  all: do 2 eexists; repeat split; reflexivity.
Qed.

Lemma listenTFO_enables_after_listen_witness :
  exists t,
    run os_ok [] (listenTFO "tcp" "127.0.0.1:0")
    = (Returned (Some (TCPListener 4), None), t)
    /\ count is_fastopen t = 1%nat.
Proof.
  assert (Hrun : exists t,
             run os_ok [] (listenTFO "tcp" "127.0.0.1:0")
             = (Returned (Some (TCPListener 4), None), t))
    by (eexists; vm_compute; reflexivity).
  destruct Hrun as (t & Hrun). exists t. split; [exact Hrun | ].
  destruct (listenTFO_enables_after_listen _ _ _ _ Hrun)
    as (id & fd & _ & Ht & _).
  rewrite Ht. reflexivity.
Defined.

(** X11.  Whenever [listenTFO] returns an error and no listener, either
    the listen itself failed and nothing else was called, or the
    listener's [SyscallConn] or [Control] failed and the listener was
    closed, once, before the return; in no case was TCP_FASTOPEN set. *)
Theorem listenTFO_failure_closes (os : oracle) (h : list entry)
  (nw address : string) (e : error) (t : list entry) :
  run os h (listenTFO nw address) = (Returned (None, Some e), t) ->
  ((exists ln, t = [Ev (Listen nw address) (ln, Some e)])
   \/ (exists ln id r,
         ln = Some (TCPListener id)
         /\ t = [Ev (Listen nw address) (ln, None);
                 Ev (ListenerSyscallConn id) (Some e);
                 Ev (ListenerClose id) r])
   \/ (exists ln id fd r,
         ln = Some (TCPListener id)
         /\ t = [Ev (Listen nw address) (ln, None);
                 Ev (ListenerSyscallConn id) None;
                 Ev (ListenerControl id) (fd, Some e);
                 Ev (ListenerClose id) r]))
  /\ count is_fastopen t = 0%nat.
Proof.
  unfold listenTFO, ListenerRawControl, SetTFOListener, guard. crunch.
  all: intro Hrun; inversion Hrun; subst; clear Hrun.
  all: split; [ | reflexivity].
  all: first
         [ left; eexists; reflexivity
         | right; left; do 3 eexists; split; reflexivity
         | right; right; do 4 eexists; split; reflexivity ].
Qed.

Lemma listenTFO_failure_closes_witness :
  exists t,
    run os_control_fails [] (listenTFO "tcp" "127.0.0.1:0")
    = (Returned (None, Some (Errno unix.EINVAL)), t)
    /\ count is_fastopen t = 0%nat.
Proof.
  assert (Hrun : exists t,
             run os_control_fails [] (listenTFO "tcp" "127.0.0.1:0")
             = (Returned (None, Some (Errno unix.EINVAL)), t))
    by (eexists; vm_compute; reflexivity).
  destruct Hrun as (t & Hrun). exists t. split; [exact Hrun | ].
  apply (listenTFO_failure_closes _ _ _ _ Hrun).
Defined.

(** ** More on [connect] *)

(** X12.  Every run of [connect] calls connectx at most once, and only
    for the descriptor of the handle, with no source address, the remote
    socket address of the handle and the payload; it waits for the
    descriptor to become writable exactly when connectx answered
    EINPROGRESS, so at most once. *)
Theorem connect_calls_connectx_once (os : oracle) (h : list entry)
  (c : tfoConn) (b : list byte) :
  exists r t,
    run os h (connect c b) = (Returned r, t)
    /\ (count is_connectx t <= 1)%nat
    /\ count is_wait_write t = count is_in_progress t
    /\ (forall ent, In ent t -> is_connectx ent = true ->
        connectx_args ent = Some (fd c, 0, None, rsockaddr c, b)).
Proof.
  unfold_connect. crunch.
  all: do 2 eexists; split; [reflexivity | ].
  all: unfold count; cbn; rewrite ?Heqb0, ?Heqb1.
  all: split; [lia | ]; split; [reflexivity | ].
  all: intros ent Hin Hent; cbn in Hin;
    repeat destruct Hin as [<- | Hin]; try contradiction;
    try discriminate Hent; reflexivity.
Qed.

(** ** More on the operations of a handle *)

(** X13.  When the runtime's poller fails during an operation (the
    deadline passed before or during the wait for writability of the
    deferred connect), the operation returns 0 and the poller's error as
    it is, and the handle is left exactly as it was, so not connected. *)
Theorem poll_failure_is_returned (os : oracle) (h : list entry)
  (c : tfoConn) (o : op) (c' : tfoConn) (n : Z) (err : option error)
  (t : list entry) (e : error) :
  run os h (do_op c o) = (Returned (c', n, err), t) ->
  In (Some e) (map poll_error t) ->
  c' = c /\ n = 0 /\ err = Some e /\ connected c' = false.
Proof.
  destruct o; destruct (connected c) eqn:Hconn;
    unfold_ops; rewrite ?Hconn; crunch.
  all: intros Hrun Hin; inversion Hrun; subst; clear Hrun.
  all: cbn in Hin; repeat destruct Hin as [Hin | Hin]; try contradiction;
    try discriminate Hin.
  all: inversion Hin; subst; repeat split; try reflexivity; assumption.
Qed.

Lemma poll_failure_is_returned_witness :
  exists t,
    run os_wait_times_out [] (do_op fresh_conn (OpWrite hello))
    = (Returned (fresh_conn, 0, Some (ErrOther "i/o timeout")), t)
    /\ In (Some (ErrOther "i/o timeout")) (map poll_error t).
Proof.
  assert (Hrun : exists c' n err t,
             run os_wait_times_out [] (do_op fresh_conn (OpWrite hello))
             = (Returned (c', n, err), t)
             /\ In (Some (ErrOther "i/o timeout")) (map poll_error t)).
  { do 4 eexists. split; [vm_compute; reflexivity | ].
    cbn. auto 10. }
  destruct Hrun as (c' & n & err & t & Hrun & Hin).
  destruct (@poll_failure_is_returned os_wait_times_out [] fresh_conn
              (OpWrite hello) c' n err t _ Hrun Hin)
    as (-> & -> & -> & _).
  exists t. split; [exact Hrun | exact Hin].
Defined.

Lemma mutex_after_app (t1 t2 : list entry) :
  forall held held',
    mutex_after held t1 = Some held' ->
    mutex_after held (t1 ++ t2) = mutex_after held' t2.
Proof.
  induction t1 as [ | e t1 IH]; intros held held' H1; cbn in *.
  - inversion H1. reflexivity.
  - destruct (mutex_step held e) as [held1 | ]; [ | discriminate].
    apply IH. exact H1.
Qed.

Lemma do_op_mutex (os : oracle) (h : list entry) (c : tfoConn) (o : op) :
  exists r t,
    run os h (do_op c o) = (Returned r, t)
    /\ mutex_after false t = Some false.
Proof.
  destruct o; destruct (connected c) eqn:Hconn;
    unfold_ops; rewrite ?Hconn; crunch.
  all: do 2 eexists; split; reflexivity.
Qed.

(** X14.  Along every sequence of [Read], [ReadFrom], [Write] and
    [Close] on a handle, the mutex is taken and released in turn and is
    free at the end, whatever fails; every step of the deferred connect
    (connectx, the waits of the poller, the reading of the socket error
    and of the local address) happens while the mutex is held, and every
    read, write and close of the file happens while it is free. *)
Theorem mutex_discipline (os : oracle) (ops : list op) :
  forall (h : list entry) (c : tfoConn),
  exists r t,
    run os h (do_ops c ops) = (Returned r, t)
    /\ mutex_after false t = Some false.
Proof.
  induction ops as [ | o ops IH]; intros h c.
  - do 2 eexists. split; reflexivity.
  - destruct (do_op_mutex os h c o) as ([[c1 n] err] & t1 & Hrun1 & Hm1).
    destruct (IH (h ++ t1) c1) as ([c2 rs] & t2 & Hrun2 & Hm2).
    exists (c2, (n, err) :: rs), (t1 ++ t2). split.
    + cbn [do_ops]. rewrite run_bind, Hrun1. cbn zeta iota beta.
      rewrite run_bind, Hrun2. cbn. rewrite app_nil_r. reflexivity.
    + rewrite (mutex_after_app _ _ _ Hm1). exact Hm2.
Qed.

(** What one operation does to the file: it is closed afterwards exactly
    when it was closed before or the operation is [Close], and the
    kernel is asked to close the descriptor exactly when [Close] finds
    the file open. *)
Lemma do_op_file_close (os : oracle) (h : list entry) (c : tfoConn)
  (o : op) :
  exists c' n err t,
    run os h (do_op c o) = (Returned (c', n, err), t)
    /\ os.closed (f c') = os.closed (f c) || is_close o
    /\ count is_file_close t
       = (if negb (os.closed (f c)) && is_close o then 1 else 0)%nat.
Proof.
  destruct o; destruct (connected c) eqn:Hconn;
    unfold_ops; rewrite ?Hconn; crunch.
  all: try (exfalso; congruence).
  all: do 4 eexists; split; [reflexivity | ].
  all: cbn;
    repeat match goal with
           | H : os.closed _ = _ |- _ => rewrite H
           end;
    split; reflexivity.
Qed.

(** X15.  Along every sequence of [Read], [ReadFrom], [Write] and
    [Close] on a handle, the file is closed at the end exactly when it
    was closed at the start or the sequence contains a [Close], and the
    kernel is asked to close the descriptor exactly once if the file was
    open and the sequence contains a [Close], and never otherwise: a
    second [Close] does not close the descriptor again. *)
Theorem descriptor_closed_once (os : oracle) (ops : list op) :
  forall (h : list entry) (c : tfoConn),
  exists c' rs t,
    run os h (do_ops c ops) = (Returned (c', rs), t)
    /\ os.closed (f c') = os.closed (f c) || existsb is_close ops
    /\ count is_file_close t
       = (if negb (os.closed (f c)) && existsb is_close ops
          then 1 else 0)%nat.
Proof.
  induction ops as [ | o ops IH]; intros h c.
  - exists c, [], []. cbn. rewrite orb_false_r, andb_false_r.
    repeat split.
  - destruct (do_op_file_close os h c o)
      as (c1 & n & err & t1 & Hrun1 & Hcl1 & Hcnt1).
    destruct (IH (h ++ t1) c1) as (c2 & rs & t2 & Hrun2 & Hcl2 & Hcnt2).
    exists c2, ((n, err) :: rs), (t1 ++ t2). split.
    { cbn [do_ops]. rewrite run_bind, Hrun1. cbn zeta iota beta.
      rewrite run_bind, Hrun2. cbn. rewrite app_nil_r. reflexivity. }
    rewrite count_app, Hcnt1, Hcnt2, Hcl2, Hcl1. cbn [existsb].
    destruct (os.closed (f c)), (is_close o), (existsb is_close ops);
      split; reflexivity.
Qed.

(** X16.  [Close] on a handle whose file is already closed makes no
    call, leaves the handle as it is and returns the runtime's
    closed-file error inside an [OpError] of operation close that
    carries the network and the two addresses of the handle. *)
Theorem Close_twice (os : oracle) (h : list entry) (c : tfoConn) :
  os.closed (f c) = true ->
  run os h (Close c)
  = (Returned
       (c, Some (OpError "close" (network c) (laddr c) (raddr c)
                   (PathError "close" ErrClosed))),
     []).
Proof.
  intro Hclosed. unfold Close, os.Close. rewrite Hclosed. cbn.
  destruct c; reflexivity.
Qed.

Lemma Close_twice_witness :
  exists c1 e1 t1,
    run os_ok [] (Close fresh_conn) = (Returned (c1, e1), t1)
    /\ os.closed (f c1) = true
    /\ run os_ok t1 (Close c1)
       = (Returned
            (c1, Some (OpError "close" "tcp" None (Some loopback)
                         (PathError "close" ErrClosed))),
          []).
Proof.
  do 3 eexists. split; [vm_compute; reflexivity | ].
  split; [reflexivity | ].
  apply (Close_twice os_ok [Ev (FileClose 3) None]
           (set_file fresh_conn {| os.Sysfd := 3; os.closed := true |})
           eq_refl).
Defined.

Lemma do_op_connected (os : oracle) (h : list entry) (c : tfoConn) (o : op) :
  connected c = true ->
  is_close o = false ->
  exists n err t,
    run os h (do_op c o) = (Returned (c, n, err), t)
    /\ forallb is_data_path t = true.
Proof.
  intros Hconn Hclose.
  destruct o; try discriminate; unfold_ops; rewrite Hconn; crunch.
  all: do 3 eexists; split; reflexivity.
Qed.

(** X17.  On a connected handle, every sequence of [Read], [ReadFrom]
    and [Write] leaves the handle exactly as it is and calls nothing but
    the mutex and the file's reads and writes: no step of the deferred
    connect is ever made again, whatever the file answers. *)
Theorem connected_handle_passes_through (os : oracle) (ops : list op) :
  forall (h : list entry) (c : tfoConn),
    connected c = true ->
    existsb is_close ops = false ->
    exists rs t,
      run os h (do_ops c ops) = (Returned (c, rs), t)
      /\ length rs = length ops
      /\ forallb is_data_path t = true.
Proof.
  induction ops as [ | o ops IH]; intros h c Hconn Hclose.
  - exists [], []. repeat split.
  - cbn [existsb] in Hclose. apply orb_false_iff in Hclose.
    destruct Hclose as [Ho Hops].
    destruct (do_op_connected os h c o Hconn Ho)
      as (n & err & t1 & Hrun1 & Hdp1).
    destruct (IH (h ++ t1) c Hconn Hops) as (rs & t2 & Hrun2 & Hlen & Hdp2).
    exists ((n, err) :: rs), (t1 ++ t2). split.
    { cbn [do_ops]. rewrite run_bind, Hrun1. cbn zeta iota beta.
      rewrite run_bind, Hrun2. cbn. rewrite app_nil_r. reflexivity. }
    split; [cbn; rewrite Hlen; reflexivity | ].
    rewrite forallb_app, Hdp1, Hdp2. reflexivity.
Qed.

Lemma connected_handle_passes_through_witness :
  exists rs t,
    run os_ok [] (do_ops connected_conn [OpWrite hello; OpRead 10])
    = (Returned (connected_conn, rs), t)
    /\ length rs = 2%nat
    /\ forallb is_data_path t = true.
Proof.
  apply (connected_handle_passes_through os_ok [OpWrite hello; OpRead 10]
           [] connected_conn eq_refl eq_refl).
Defined.

(** ** The public setters *)

(** X18.  [SetNoDelay], [SetKeepAlive], [SetKeepAlivePeriod] and
    [SetLinger] do not look at the state of the handle: connected or
    not, closed or not, each makes its setsockopt calls on the stored
    descriptor and nothing else.  Each returns nil when the kernel
    accepted them, and otherwise an [OpError] of operation set that
    carries the network and addresses of the handle around the kernel's
    error wrapped with the name setsockopt. *)
Theorem public_setters_wrap_errors (os : oracle) (h : list entry)
  (c : tfoConn) (b : bool) (d sec : Z) :
  (exists r t, run os h (SetNoDelay c b) = (Returned r, t) /\ setter_run c r t)
  /\ (exists r t,
        run os h (SetKeepAlive c b) = (Returned r, t) /\ setter_run c r t)
  /\ (exists r t,
        run os h (SetKeepAlivePeriod c d) = (Returned r, t)
        /\ setter_run c r t)
  /\ (exists r t,
        run os h (SetLinger c sec) = (Returned r, t) /\ setter_run c r t).
Proof.
  unfold setter_run.
  repeat split.
  - unfold SetNoDelay, setNoDelay, guard. crunch.
    all: do 2 eexists; split; [reflexivity | ].
    all: split; [discriminate | ]; split; [ | reflexivity].
    all: repeat constructor.
  - unfold SetKeepAlive, setKeepAlive, guard. crunch.
    all: do 2 eexists; split; [reflexivity | ].
    all: split; [discriminate | ]; split; [ | reflexivity].
    all: repeat constructor.
  - unfold SetKeepAlivePeriod, setKeepAlivePeriod, guard.
    generalize (int (roundDurationUp d time.Second)). intro secs. crunch.
    all: do 2 eexists; split; [reflexivity | ].
    all: split; [discriminate | ]; split; [ | reflexivity].
    all: repeat constructor.
  - unfold SetLinger, setLinger, guard. crunch.
    all: do 2 eexists; split; [reflexivity | ].
    all: split; [discriminate | ]; split; [ | reflexivity].
    all: repeat constructor.
Qed.

Lemma int32_small (x : Z) : 0 <= x < 2 ^ 31 -> int32 x = x.
Proof.
  unfold int32, wrap_signed. intro Hx.
  change (2 ^ 32) with 4294967296.
  change (2 ^ (32 - 1)) with 2147483648.
  change (2 ^ 31) with 2147483648 in Hx.
  rewrite Z.mod_small by lia.
  destruct (Z.ltb_spec x 2147483648); lia.
Qed.

(** X19.  [setLinger] makes one SO_LINGER call and returns its answer.
    A negative number of seconds switches lingering off, with a zero
    timeout; a number from 0 up to 2^31 - 1 switches it on with that
    number of seconds as timeout. *)
Theorem setLinger_values (os : oracle) (h : list entry) (fd sec : Z) :
  sec < 2 ^ 31 ->
  let l := if sec <? 0 then {| Onoff := 0; Linger_ := 0 |}
           else {| Onoff := 1; Linger_ := sec |} in
  run os h (setLinger fd sec)
  = (Returned (os _ h (SetsockoptLinger fd unix.SOL_SOCKET unix.SO_LINGER l)),
     [Ev (SetsockoptLinger fd unix.SOL_SOCKET unix.SO_LINGER l)
         (os _ h (SetsockoptLinger fd unix.SOL_SOCKET unix.SO_LINGER l))]).
Proof.
  intro Hsec. unfold setLinger. cbn zeta.
  destruct (Z.geb_spec sec 0) as [Hpos | Hneg];
    destruct (Z.ltb_spec sec 0); try lia.
  - rewrite int32_small by lia. reflexivity.
  - reflexivity.
Qed.

Lemma setLinger_values_witness :
  30 < 2 ^ 31
  /\ run os_ok [] (setLinger 3 30)
     = (Returned None,
        [Ev (SetsockoptLinger 3 unix.SOL_SOCKET unix.SO_LINGER
               {| Onoff := 1; Linger_ := 30 |}) None]).
Proof.
  assert (H : 30 < 2 ^ 31) by (change (2 ^ 31) with 2147483648; lia).
  split; [exact H | ].
  apply (setLinger_values os_ok [] 3 H).
Defined.

(** X20.  A [Write] hands its buffer to the kernel at most once: on a
    handle that is not connected it never writes to the file, so the
    bytes the handshake did not take are not sent by this call; on a
    connected handle it writes the buffer to the open file once and
    never calls connectx. *)
Theorem Write_sends_buffer_once (os : oracle) (h : list entry)
  (c : tfoConn) (b : list byte) :
  exists r t,
    run os h (Write c b) = (Returned r, t)
    /\ (count is_connectx t + count is_file_write t <= 1)%nat
    /\ (if connected c then
          count is_connectx t = 0%nat
          /\ count is_file_write t
             = (if os.closed (f c) then 0 else 1)%nat
        else count is_file_write t = 0%nat)
    /\ (forall ent, In ent t -> is_connectx ent = true ->
        connectx_args ent = Some (fd c, 0, None, rsockaddr c, b)).
Proof.
  destruct (connected c) eqn:Hconn;
    unfold Write, os.Write; unfold_connect; rewrite ?Hconn; crunch.
  all: try (exfalso; congruence).
  all: do 2 eexists; split; [reflexivity | ].
  all: unfold count; cbn;
    repeat match goal with
           | H : os.closed _ = _ |- _ => rewrite H
           end.
  all: split; [lia | ]; split; [auto | ].
  all: intros ent Hin Hent; cbn in Hin;
    repeat destruct Hin as [<- | Hin]; try contradiction;
    try discriminate Hent; reflexivity.
Qed.
